(** * nebula: the settings singleton and the room activity log

    A shallow embedding of [backend/apps/core/models.py] and
    [backend/apps/core/admin.py].

    - A Python [str] is the [string] of its UTF-8 bytes.  The [len] of a
      text that a person types, a password, is [py_len], the number of
      its characters; a password hash and a room id hold ASCII only, and
      their [len] is [String.length].
    - A [datetime] is a [Z], the number of microseconds since the epoch;
      [timedelta(days=30)] is [thirty_days].
    - A database table is a finite map from primary keys to rows.
    - Python code that reads the clock, draws a salt, queries the database,
      logs or raises runs in the monad [M]: a state transformer over a
      [World] that returns either a value or the exception raised. *)

From Stdlib Require Import ZArith Ascii String List Bool Lia.
From stdpp Require Import gmap strings list fin_maps.

Open Scope Z_scope.
Open Scope string_scope.

(** ** Exceptions and results *)

Inductive exn : Type :=
  | DoesNotExist
  | IntegrityError
  | DatabaseError
  | ValidationError (message : string).

Inductive result (A : Type) : Type :=
  | Ok (a : A)
  | Raise (e : exn).

Arguments Ok {A} a.
Arguments Raise {A} e.

(** ** Rows, model instances and what the program leaves behind *)

(** A row of the [SystemSettings] table; the primary key is the key of the
    table. *)
Record SettingsRow : Type := mkSettingsRow {
  row_access_password_hash : string;
  row_created_at : Z;
  row_updated_at : Z;
  row_is_active : bool;
}.

(** A [SystemSettings] instance in memory.  [pk] is the primary key, which
    the source reads and writes as [self.pk] and as [self.id]; it and the
    two timestamps are [None] until the instance has been saved or loaded. *)
Record SystemSettings : Type := mkSystemSettings {
  pk : option Z;
  access_password_hash : string;
  created_at : option Z;
  updated_at : option Z;
  is_active : bool;
}.

Inductive Action : Type := Created | Joined | Left | Expired | Deleted.

Record RoomActivityLog : Type := mkRoomActivityLog {
  room_id : string;
  action : Action;
  timestamp : Z;
  participant_count : nat;
  ip_address : option string;
  user_agent_hash : option string;
}.

(** The statements sent to the [SystemSettings] table, in order. *)
Inductive Query : Type :=
  | QSelect (pk : Z)
  | QExists (pk : Z)
  | QUpdate (pk : Z)
  | QInsert (pk : Z).

(** The records written to the module's logger. *)
Inductive LogRecord : Type :=
  | InfoSettingPassword
  | InfoSaving (pk : option Z) (has_password : bool) (hash_preview : string)
  | InfoSaved (pk : option Z) (hash_length : nat)
  | InfoVerified
  | ErrorNotSaved
  | InfoRetried
  | ErrorVerifying (e : exn).

(** The messages shown to the administrator by [message_user]. *)
Inductive Message : Type :=
  | PasswordChanged
  | OldLogsDeleted (count : nat).

(** ** The database behind the settings table

    The four statements the ORM sends for this model.  Each may change the
    database and may raise.  Nothing is assumed about them here: a backend
    that loses writes is a [Backend] too. *)
Class Backend (db : Type) : Type := {
  sql_select : Z -> db -> result (option SettingsRow) * db;
  sql_exists : Z -> db -> result bool * db;
  sql_update : Z -> string -> bool -> db -> result nat * db;
  sql_insert : Z -> SettingsRow -> db -> result unit * db;
}.

(** ** The password hasher of [django.contrib.auth.hashers]

    [hasher_encode draw raw] is the encoded password for [raw] when the
    salt is the [draw]-th salt of the random source;
    [hasher_verify raw encoded] is the hasher's check. *)
Class Hasher : Type := {
  hasher_encode : nat -> string -> string;
  hasher_verify : string -> string -> bool;
}.

(** What a password hasher promises: an encoded password is never the
    empty string, and a password verifies against its own encoding.  It
    does not promise that no other password does. *)
Class HasherLaws `{Hasher} : Prop := {
  encode_truthy : forall draw raw,
      hasher_encode draw raw <> EmptyString;
  verify_encode : forall draw raw,
      hasher_verify raw (hasher_encode draw raw) = true;
}.

(** ** The world and the monad *)

Record World (db : Type) : Type := mkWorld {
  store : db;
  activity : gmap Z RoomActivityLog;
  clock : Z;
  entropy : nat;
  trace : list Query;
  journal : list LogRecord;
  flashes : list Message;
}.

Arguments mkWorld {db}.
Arguments store {db}.
Arguments activity {db}.
Arguments clock {db}.
Arguments entropy {db}.
Arguments trace {db}.
Arguments journal {db}.
Arguments flashes {db}.

Definition M (db A : Type) : Type := World db -> result A * World db.

Definition ret {db A : Type} (a : A) : M db A := fun w => (Ok a, w).

Definition raise {db A : Type} (e : exn) : M db A := fun w => (Raise e, w).

Definition bind {db A B : Type} (m : M db A) (k : A -> M db B) : M db B :=
  fun w =>
    match m w with
    | (Ok a, w') => k a w'
    | (Raise e, w') => (Raise e, w')
    end.

Notation "'let*' x ':=' m 'in' k" := (bind m (fun x => k))
  (at level 10, x name, m at level 100, k at level 200).

Notation "m ';;' k" := (bind m (fun _ => k))
  (at level 100, k at level 200, right associativity).

(** [try: m except handler]: when [m] raises [e] and [handler e] is
    [Some h], [h] runs in the world [m] left behind; otherwise the
    exception goes on. *)
Definition try_except {db A : Type} (m : M db A)
    (handler : exn -> option (M db A)) : M db A :=
  fun w =>
    match m w with
    | (Ok a, w') => (Ok a, w')
    | (Raise e, w') =>
        match handler e with
        | Some h => h w'
        | None => (Raise e, w')
        end
    end.

(** [except SystemSettings.DoesNotExist: h] *)
Definition except_DoesNotExist {db A : Type} (h : M db A) (e : exn)
    : option (M db A) :=
  match e with
  | DoesNotExist => Some h
  | _ => None
  end.

(** [except Exception as e: h e] *)
Definition except_Exception {db A : Type} (h : exn -> M db A) (e : exn)
    : option (M db A) :=
  Some (h e).

Section Effects.
Context {db : Type}.

Definition with_store (s : db) (w : World db) : World db :=
  mkWorld s (activity w) (clock w) (entropy w) (trace w) (journal w)
    (flashes w).

Definition with_activity (a : gmap Z RoomActivityLog) (w : World db)
    : World db :=
  mkWorld (store w) a (clock w) (entropy w) (trace w) (journal w)
    (flashes w).

Definition with_clock (t : Z) (w : World db) : World db :=
  mkWorld (store w) (activity w) t (entropy w) (trace w) (journal w)
    (flashes w).

Definition with_entropy (n : nat) (w : World db) : World db :=
  mkWorld (store w) (activity w) (clock w) n (trace w) (journal w)
    (flashes w).

Definition with_trace (q : list Query) (w : World db) : World db :=
  mkWorld (store w) (activity w) (clock w) (entropy w) q (journal w)
    (flashes w).

Definition with_journal (j : list LogRecord) (w : World db) : World db :=
  mkWorld (store w) (activity w) (clock w) (entropy w) (trace w) j
    (flashes w).

Definition with_flashes (f : list Message) (w : World db) : World db :=
  mkWorld (store w) (activity w) (clock w) (entropy w) (trace w)
    (journal w) f.

(** [timezone.now()] and [datetime.now()] *)
Definition now : M db Z := fun w => (Ok (clock w), w).

(** [logger.info(...)] and [logger.error(...)] *)
Definition log (r : LogRecord) : M db unit :=
  fun w => (Ok tt, with_journal (journal w ++ [r]) w).

(** [self.message_user(request, ...)] *)
Definition message_user (m : Message) : M db unit :=
  fun w => (Ok tt, with_flashes (flashes w ++ [m]) w).

(** One statement sent to the settings table: it is recorded in the
    trace, then the backend runs it. *)
Definition query {A : Type} (q : Query) (run : db -> result A * db)
    : M db A :=
  fun w =>
    let '(r, s) := run (store w) in
    (r, with_store s (with_trace (trace w ++ [q]) w)).
End Effects.

(** ** django.contrib.auth.hashers *)

Module Hashers.
Section Hashers.
Context {db : Type} `{Hasher}.

(** [make_password(raw)]: draws a fresh salt and encodes. *)
Definition make_password (raw_password : string) : M db string :=
  fun w =>
    (Ok (hasher_encode (entropy w) raw_password),
     with_entropy (S (entropy w)) w).

(** [check_password(raw, encoded)] *)
Definition check_password (raw_password encoded : string) : bool :=
  hasher_verify raw_password encoded.
End Hashers.
End Hashers.

(** ** The manager [SystemSettings.objects] and [models.Model] *)

Module Orm.
Section Orm.
Context {db : Type} `{Backend db}.

(** The instance Django builds from a row fetched under key [k]. *)
Definition from_db (k : Z) (r : SettingsRow) : SystemSettings :=
  mkSystemSettings (Some k) (row_access_password_hash r)
    (Some (row_created_at r)) (Some (row_updated_at r)) (row_is_active r).

(** [objects.filter(pk=k).first()] *)
Definition first (k : Z) : M db (option SystemSettings) :=
  let* r := query (QSelect k) (sql_select k) in
  ret (from_db k <$> r).

(** [objects.get(pk=k)] *)
Definition get (k : Z) : M db SystemSettings :=
  let* r := query (QSelect k) (sql_select k) in
  match r with
  | Some row => ret (from_db k row)
  | None => raise DoesNotExist
  end.

(** [objects.filter(pk=k).exists()] *)
Definition exists_ (k : Z) : M db bool :=
  query (QExists k) (sql_exists k).

(** [objects.filter(pk=k).update(access_password_hash=h, is_active=a)]:
    one UPDATE statement on these two columns; no field's [pre_save]
    runs. *)
Definition update (k : Z) (h : string) (a : bool) : M db nat :=
  query (QUpdate k) (sql_update k h a).

(** [instance.refresh_from_db()]: reloads every field from the row under
    the instance's primary key. *)
Definition refresh_from_db (self : SystemSettings) : M db SystemSettings :=
  match pk self with
  | Some k => get k
  | None => raise DoesNotExist
  end.

(** [models.Model.save(self, force_insert=True, force_update=False)]:
    [pre_save] gives [created_at] ([auto_now_add], on insert) and
    [updated_at] ([auto_now]) the current time, then the row is inserted
    under the instance's primary key.  [SystemSettings.save] sets the key
    before it comes here; the key the database would choose for an
    instance without one is not modelled. *)
Definition Model_save (self : SystemSettings) : M db SystemSettings :=
  let* t_created := now in
  let* t_updated := now in
  let self := mkSystemSettings (pk self) (access_password_hash self)
                (Some t_created) (Some t_updated) (is_active self) in
  match pk self with
  | Some k =>
      query (QInsert k)
        (sql_insert k (mkSettingsRow (access_password_hash self) t_created
                         t_updated (is_active self))) ;;
      ret self
  | None => raise DatabaseError
  end.
End Orm.
End Orm.

(** Python's truth value of a [str]: only the empty string is false. *)
Definition truthy (s : string) : bool :=
  match s with
  | EmptyString => false
  | String _ _ => true
  end.

(** Python's [len] of a [str] held as its UTF-8 bytes: the number of
    characters, which is the number of bytes that are not continuation
    bytes (those of the form 10xxxxxx). *)
Definition is_continuation (c : ascii) : bool :=
  match c with
  | Ascii _ _ _ _ _ _ b6 b7 => b7 && negb b6
  end.

Fixpoint py_len (s : string) : nat :=
  match s with
  | EmptyString => 0
  | String c rest => (if is_continuation c then 0 else 1) + py_len rest
  end.

(** ** core/models.py *)

Module Models.
Section Models.
Context {db : Type} `{Backend db} `{Hasher}.

Definition default_password : string := "admin123".

(** [SystemSettings(pk=k, access_password_hash=h, is_active=a)] *)
Definition new_instance (k : option Z) (h : string) (a : bool)
    : SystemSettings :=
  mkSystemSettings k h None None a.

Definition set_pk (k : Z) (self : SystemSettings) : SystemSettings :=
  mkSystemSettings (Some k) (access_password_hash self) (created_at self)
    (updated_at self) (is_active self).

Definition set_access_password_hash (h : string) (self : SystemSettings)
    : SystemSettings :=
  mkSystemSettings (pk self) h (created_at self) (updated_at self)
    (is_active self).

Definition set_is_active (a : bool) (self : SystemSettings)
    : SystemSettings :=
  mkSystemSettings (pk self) (access_password_hash self) (created_at self)
    (updated_at self) a.

(** [SystemSettings.set_password]: the instance with its new hash. *)
Definition set_password (self : SystemSettings) (raw_password : string)
    : M db SystemSettings :=
  let* h := Hashers.make_password raw_password in
  ret (set_access_password_hash h self).

(** [SystemSettings.check_password] *)
Definition check_password (self : SystemSettings) (raw_password : string)
    : bool :=
  Hashers.check_password raw_password (access_password_hash self).

(** [SystemSettings.save]: the instance as the call leaves it. *)
Definition save (self : SystemSettings) : M db SystemSettings :=
  let self := set_pk 1 self in
  let* found := Orm.exists_ 1 in
  if found : bool then
    Orm.update 1 (access_password_hash self) (is_active self) ;;
    try_except
      (let* db_obj := Orm.get 1 in
       ret (mkSystemSettings (pk db_obj) (access_password_hash self)
              (created_at db_obj) (updated_at db_obj) (is_active self)))
      (except_DoesNotExist (ret self))
  else
    Orm.Model_save self.

(** [SystemSettings.objects.create(pk=k, access_password_hash=h,
    is_active=a)]: builds the instance and saves it. *)
Definition create (k : Z) (h : string) (a : bool) : M db SystemSettings :=
  save (new_instance (Some k) h a).

(** [SystemSettings.get_settings] *)
Definition get_settings : M db SystemSettings :=
  let* settings := Orm.first 1 in
  match settings with
  | None =>
      let* h := Hashers.make_password default_password in
      create 1 h true
  | Some settings => Orm.refresh_from_db settings
  end.

(** [SystemSettings.delete]: its body is [pass]. *)
Definition delete (self : SystemSettings) : M db unit := ret tt.
End Models.
End Models.

(** ** core/admin.py *)

Module Admin.
Section Admin.
Context {db : Type} `{Backend db} `{Hasher}.

(** What [save_model] and [clean] read from the form: the two cleaned
    password fields and [form.changed_data]. *)
Record Form : Type := mkForm {
  new_password : string;
  confirm_password : string;
  changed_data : list string;
}.

(** The messages of the four validation errors of [clean]: no new
    password, no confirmation, mismatch, too short. *)
Definition msg_enter_password : string := "Введите новый пароль".
Definition msg_confirm_password : string := "Подтвердите пароль".
Definition msg_mismatch : string := "Пароли не совпадают".
Definition msg_too_short : string :=
  "Пароль должен содержать минимум 6 символов".

(** [SystemSettingsForm.clean] *)
Definition clean (form : Form) : result Form :=
  if truthy (new_password form) || truthy (confirm_password form) then
    if negb (truthy (new_password form)) then
      Raise (ValidationError msg_enter_password)
    else if negb (truthy (confirm_password form)) then
      Raise (ValidationError msg_confirm_password)
    else if negb (String.eqb (new_password form) (confirm_password form))
    then Raise (ValidationError msg_mismatch)
    else if (py_len (new_password form) <? 6)%nat then
      Raise (ValidationError msg_too_short)
    else Ok form
  else Ok form.

(** ['is_active' in form.changed_data] *)
Definition is_active_changed (form : Form) : bool :=
  bool_decide ("is_active" ∈ changed_data form).

(** [not form.changed_data] *)
Definition nothing_changed (form : Form) : bool :=
  match changed_data form with
  | [] => true
  | _ :: _ => false
  end.

(** [hash[:30] if hash else 'None'] *)
Definition hash_preview (h : string) : string :=
  if truthy h then substring 0 30 h else "None".

(** Lines 88-98 of [save_model]: the first look at the stored record. *)
Definition copy_existing (form : Form) (obj : SystemSettings)
    : M db SystemSettings :=
  try_except
    (let* existing_obj := Orm.get 1 in
     let obj :=
       if negb (truthy (new_password form)) then
         Models.set_access_password_hash
           (access_password_hash existing_obj) obj
       else obj in
     let obj :=
       if negb (is_active_changed form) then
         Models.set_is_active (is_active existing_obj) obj
       else obj in
     ret obj)
    (except_DoesNotExist (ret obj)).

(** Lines 100-112 of [save_model]: the second look. *)
Definition keep_existing (form : Form) (obj : SystemSettings)
    : M db SystemSettings :=
  try_except
    (let* existing_obj := Orm.get 1 in
     let obj :=
       if negb (truthy (new_password form)) then
         Models.set_access_password_hash
           (access_password_hash existing_obj) obj
       else obj in
     let obj :=
       if nothing_changed form || negb (is_active_changed form) then
         Models.set_is_active
           (if nothing_changed form then is_active existing_obj
            else is_active obj) obj
       else obj in
     ret obj)
    (except_DoesNotExist
       (if negb (truthy (new_password form)) then
          Models.set_password obj Models.default_password
        else ret obj)).

(** Lines 136-149 of [save_model]: the look at what was saved. *)
Definition verify_saved (form : Form) : M db unit :=
  try_except
    (let* saved_obj := Orm.get 1 in
     log (InfoSaved (pk saved_obj)
            (String.length (access_password_hash saved_obj))) ;;
     if truthy (new_password form)
        && Models.check_password saved_obj (new_password form)
     then log InfoVerified
     else if truthy (new_password form) then
       log ErrorNotSaved ;;
       let* saved_obj := Models.set_password saved_obj (new_password form) in
       Models.save saved_obj ;;
       log InfoRetried
     else ret tt)
    (except_Exception (fun e => log (ErrorVerifying e))).

(** Lines 83-134 of [save_model]: everything up to and including
    [obj.save()]. *)
Definition prepare_and_save (obj : SystemSettings) (form : Form)
    : M db SystemSettings :=
  let obj := Models.set_pk 1 obj in
  let* obj := copy_existing form obj in
  let* obj := keep_existing form obj in
  let* obj :=
    if truthy (new_password form) then
      let* obj := Models.set_password obj (new_password form) in
      log InfoSettingPassword ;;
      message_user PasswordChanged ;;
      ret obj
    else ret obj in
  let* obj :=
    if negb (truthy (access_password_hash obj)) then
      Models.set_password obj Models.default_password
    else ret obj in
  log (InfoSaving (pk obj) (truthy (access_password_hash obj))
         (hash_preview (access_password_hash obj))) ;;
  Models.save obj.

(** [SystemSettingsAdmin.save_model]: the instance as the call leaves
    it. *)
Definition save_model (obj : SystemSettings) (form : Form)
    : M db SystemSettings :=
  let* obj := prepare_and_save obj form in
  verify_saved form ;;
  ret obj.

(** What [django.contrib.admin] does with a submitted settings form:
    [save_model] runs only when [clean] accepted the form; otherwise the
    validation error is what the submission ends with. *)
Definition changeform_view (obj : SystemSettings) (form : Form)
    : M db SystemSettings :=
  match clean form with
  | Ok cleaned => save_model obj cleaned
  | Raise e => raise e
  end.

(** [SystemSettingsAdmin.has_delete_permission] *)
Definition has_delete_permission (obj : option SystemSettings) : bool :=
  false.

(** [timedelta(days=30)], in microseconds. *)
Definition thirty_days : Z := 30 * 86400 * 1000000.

(** [RoomActivityLog.objects.filter(timestamp__lt=old_date)] *)
Definition older_than (old_date : Z) (entry : Z * RoomActivityLog) : Prop :=
  timestamp entry.2 < old_date.

#[global] Instance older_than_dec (old_date : Z)
    (entry : Z * RoomActivityLog) : Decision (older_than old_date entry) :=
  decide (timestamp entry.2 < old_date).

(** [RoomActivityLog.objects.filter(timestamp__lt=old_date).delete()[0]]:
    removes the matching rows and gives their number. *)
Definition delete_older_than (old_date : Z) : M db nat :=
  fun w =>
    (Ok (size (filter (older_than old_date) (activity w))),
     with_activity
       (filter (fun entry => ~ older_than old_date entry) (activity w)) w).

(** [RoomActivityLogAdmin.delete_old_logs]; [queryset] is the set of
    primary keys the administrator selected. *)
Definition delete_old_logs (queryset : gset Z) : M db unit :=
  let* t := now in
  let old_date := t - thirty_days in
  let* count := delete_older_than old_date in
  message_user (OldLogsDeleted count).
End Admin.
End Admin.

(** ** Two databases and a hasher to run the code on *)

Abbreviation Table := (gmap Z SettingsRow).

(** A database that does what the statements say. *)
Definition reliable : Backend Table := {|
  sql_select k m := (Ok (m !! k), m);
  sql_exists k m := (Ok (bool_decide (is_Some (m !! k))), m);
  sql_update k h a m :=
    match m !! k with
    | Some r =>
        (Ok 1%nat,
         <[k := mkSettingsRow h (row_created_at r) (row_updated_at r) a]> m)
    | None => (Ok 0%nat, m)
    end;
  sql_insert k r m :=
    match m !! k with
    | Some _ => (Raise IntegrityError, m)
    | None => (Ok tt, <[k := r]> m)
    end;
|}.

(** A database that reports every UPDATE as done and keeps none of them. *)
Definition lossy : Backend Table := {|
  sql_select k m := (Ok (m !! k), m);
  sql_exists k m := (Ok (bool_decide (is_Some (m !! k))), m);
  sql_update k h a m := (Ok 1%nat, m);
  sql_insert k r m :=
    match m !! k with
    | Some _ => (Raise IntegrityError, m)
    | None => (Ok tt, <[k := r]> m)
    end;
|}.

(** A hasher that keeps the password in the clear behind a one-character
    salt.  It shows that [HasherLaws] can be met and lets the code run on
    concrete inputs. *)
Definition cleartext_hasher : Hasher := {|
  hasher_encode draw raw := String (Ascii.ascii_of_nat (97 + draw)) raw;
  hasher_verify raw encoded :=
    match encoded with
    | EmptyString => false
    | String _ kept => String.eqb raw kept
    end;
|}.

(** ** A hasher of the shape of Django's default one

    Django's default hasher is PBKDF2 over HMAC-SHA256.  HMAC replaces a
    key longer than its block of 64 bytes by the digest of the key and
    pads the key with zero bytes to 64 bytes, and PBKDF2 gives it the
    password as the key: the hash depends on the password through
    [hmac_key] only. *)
Definition nul : string := String (Ascii.ascii_of_nat 0) EmptyString.

Fixpoint zeros (n : nat) : string :=
  match n with
  | O => EmptyString
  | S n => String (Ascii.ascii_of_nat 0) (zeros n)
  end.

Definition hmac_key (digest : string -> string) (p : string) : string :=
  let k := if (64 <? String.length p)%nat then digest p else p in
  k ++ zeros (64 - String.length k).

(** [s.split("$", 1)]: the text before the first dollar sign and the text
    after it. *)
Fixpoint split_dollar (s : string) : option (string * string) :=
  match s with
  | EmptyString => None
  | String c rest =>
      if Ascii.eqb c "$"%char then Some (EmptyString, rest)
      else match split_dollar rest with
           | Some (before, after) => Some (String c before, after)
           | None => None
           end
  end.

(** [algorithm, iterations, salt, hash = encoded.split("$", 3)] *)
Definition decode (encoded : string)
    : option (string * string * string * string) :=
  match split_dollar encoded with
  | Some (algorithm, rest) =>
      match split_dollar rest with
      | Some (iterations, rest) =>
          match split_dollar rest with
          | Some (salt, hash) => Some (algorithm, iterations, salt, hash)
          | None => None
          end
      | None => None
      end
  | None => None
  end.

Section Pbkdf2.
(** The digest HMAC applies to a long key, the pseudo-random function
    from the padded key and the salt to the hash, and the salts that the
    random source gives. *)
Context (digest : string -> string) (prf : string -> string -> string)
  (salt_of : nat -> string).

(** [PBKDF2PasswordHasher.encode(password, salt, iterations)] *)
Definition pbkdf2_encode (iterations salt raw : string) : string :=
  "pbkdf2_sha256$" ++ iterations ++ "$" ++ salt ++ "$"
  ++ prf (hmac_key digest raw) salt.

(** [PBKDF2PasswordHasher.verify(password, encoded)]: encodes the
    password with the salt and the iterations found in [encoded] and
    compares. *)
Definition pbkdf2_verify (raw encoded : string) : bool :=
  match decode encoded with
  | Some (_, iterations, salt, _) =>
      String.eqb encoded (pbkdf2_encode iterations salt raw)
  | None => false
  end.

Definition pbkdf2_like : Hasher := {|
  hasher_encode draw raw := pbkdf2_encode "600000" (salt_of draw) raw;
  hasher_verify := pbkdf2_verify;
|}.
End Pbkdf2.

(** [pbkdf2_like] made to run: the first 32 bytes for a digest, the
    padded key followed by the salt for a hash, and a salt of one letter
    for each draw. *)
Definition pbkdf2_toy : Hasher :=
  pbkdf2_like (substring 0 32) (fun key salt => key ++ salt)
    (fun draw => String (Ascii.ascii_of_nat (97 + draw)) EmptyString).

(** ** Sequences of calls on the settings model

    What a caller can do to the settings: read them with [get_settings],
    [save] or [delete] an instance, and submit the admin form, which is
    how a password or the active flag is set. *)

Inductive Call : Type :=
  | GetSettings
  | Save (obj : SystemSettings)
  | SaveModel (obj : SystemSettings) (form : Admin.Form)
  | Delete (obj : SystemSettings).

Definition writes (c : Call) : bool :=
  match c with
  | Delete _ => false
  | _ => true
  end.

Section Calls.
Context {db : Type} `{Backend db} `{Hasher}.

Definition perform (c : Call) : M db unit :=
  match c with
  | GetSettings => Models.get_settings ;; ret tt
  | Save obj => Models.save obj ;; ret tt
  | SaveModel obj form => Admin.save_model obj form ;; ret tt
  | Delete obj => Models.delete obj
  end.

(** The calls run one after the other; [None] when one of them raised. *)
Fixpoint perform_all (cs : list Call) (w : World db) : option (World db) :=
  match cs with
  | [] => Some w
  | c :: cs =>
      match perform c w with
      | (Ok _, w') => perform_all cs w'
      | (Raise _, _) => None
      end
  end.
End Calls.

(** Whether some SELECT follows an INSERT in a trace: whether what was
    inserted has been read back. *)
Definition is_select (q : Query) : bool :=
  match q with
  | QSelect _ => true
  | _ => false
  end.

Fixpoint reads_after_insert (q : list Query) : bool :=
  match q with
  | [] => false
  | QInsert _ :: rest => existsb is_select rest || reads_after_insert rest
  | _ :: rest => reads_after_insert rest
  end.

(** Worlds to run the code in: a settings table and a clock reading,
    nothing logged yet. *)
Definition world_of (s : Table) (t : Z) : World Table :=
  mkWorld s ∅ t 0%nat [] [] [].

(** A settings row written at time 100 whose password is [oldpass1]
    under [cleartext_hasher]. *)
Definition old_row : SettingsRow := mkSettingsRow "aoldpass1" 100 100 true.

(** A world whose settings table holds [old_row] under key 1, at time
    500. *)
Definition old_world : World Table := world_of {[1 := old_row]} 500.

(** A world with an empty settings table, at time 500. *)
Definition fresh_world : World Table := world_of ∅ 500.

(** A world whose settings table holds one record, under key 2. *)
Definition stray_world : World Table := world_of {[2 := old_row]} 500.

(** The form of a password change to [secret1]. *)
Definition secret_form : Admin.Form :=
  Admin.mkForm "secret1" "secret1" ["new_password"].

(** An activity log with entries at time 0, one microsecond before the
    cutoff, at the cutoff and at the current time, which is
    [3000000000000]; the cutoff is 30 days before. *)
Definition entry_at (t : Z) : RoomActivityLog :=
  mkRoomActivityLog "0b0e4c1e-7a55-4d0e-9a57-3c1b6d2f8e11" Created t 0 None
    None.

Definition log_world : World Table :=
  mkWorld ∅
    (list_to_map
       [(1, entry_at 0); (2, entry_at 407999999999);
        (3, entry_at 408000000000); (4, entry_at 3000000000000)])
    3000000000000 0%nat [] [] [].

(** The form of a change of [is_active] alone. *)
Definition off_form : Admin.Form := Admin.mkForm "" "" ["is_active"].

(** The instance and the world that lines 83-134 of [save_model] leave
    when they run on [old_world] with [secret_form] over the [lossy]
    database: the instance carries the new hash, the table does not. *)
Definition changed_settings : SystemSettings :=
  mkSystemSettings (Some 1) "asecret1" (Some 100) (Some 100) true.

Definition unsaved_world : World Table :=
  mkWorld {[1 := old_row]} ∅ 500 1%nat
    [QSelect 1; QSelect 1; QExists 1; QUpdate 1; QSelect 1]
    [InfoSettingPassword; InfoSaving (Some 1) true "asecret1"]
    [PasswordChanged].

(** The row [save] leaves behind when a row was there. *)
Definition updated_row (r : SettingsRow) (self : SystemSettings)
    : SettingsRow :=
  mkSettingsRow (access_password_hash self) (row_created_at r)
    (row_updated_at r) (is_active self).

(** The row [save] leaves behind when none was there. *)
Definition inserted_row (t : Z) (self : SystemSettings) : SettingsRow :=
  mkSettingsRow (access_password_hash self) t t (is_active self).

(** ** The display helpers and permissions of the two files

    What the claims' code places leave out of [core/models.py] and
    [core/admin.py]: [__str__], the admin columns and the permissions. *)

Module Display.

(** The double quote character, which the HTML of the admin columns
    holds. *)
Definition dq : string := String (Ascii.ascii_of_nat 34) EmptyString.

(** [django.utils.html.escape], which [format_html] applies to its
    arguments: the five characters HTML gives a meaning to are replaced
    by their entities. *)
Fixpoint escape (s : string) : string :=
  match s with
  | EmptyString => EmptyString
  | String c rest =>
      (if Ascii.eqb c "&"%char then "&amp;"
       else if Ascii.eqb c "<"%char then "&lt;"
       else if Ascii.eqb c ">"%char then "&gt;"
       else if Ascii.eqb c (Ascii.ascii_of_nat 34) then "&quot;"
       else if Ascii.eqb c "'"%char then "&#x27;"
       else String c EmptyString) ++ escape rest
  end.

Definition status_set : string :=
  "<span style=" ++ dq ++ "color: green;" ++ dq ++ ">✓ Установлен</span>".

Definition status_unset : string :=
  "<span style=" ++ dq ++ "color: red;" ++ dq ++ ">✗ Не установлен</span>".

(** [SystemSettingsAdmin.password_status] *)
Definition password_status (obj : SystemSettings) : string :=
  if truthy (access_password_hash obj) then status_set else status_unset.

(** The local [hash_preview] of [password_hash_preview]:
    [hash[:20] + '...' if len(hash) > 20 else hash]. *)
Definition shown_hash (h : string) : string :=
  if (20 <? String.length h)%nat then substring 0 20 h ++ "..." else h.

Definition code_open : string :=
  "<code style=" ++ dq
  ++ "background: #f8f9fa; padding: 2px 6px; border-radius: 3px;" ++ dq
  ++ ">".

Definition code_close : string := "</code>".

Definition msg_no_password : string := "Пароль не установлен".

(** [SystemSettingsAdmin.password_hash_preview] *)
Definition password_hash_preview (obj : SystemSettings) : string :=
  if truthy (access_password_hash obj) then
    code_open ++ escape (shown_hash (access_password_hash obj)) ++ code_close
  else msg_no_password.

(** [RoomActivityLogAdmin.room_id_short] *)
Definition room_id_short (obj : RoomActivityLog) : string :=
  if truthy (room_id obj) then substring 0 8 (room_id obj) ++ "..."
  else "N/A".

(** [RoomActivityLogAdmin.has_add_permission] and
    [has_change_permission] *)
Definition log_has_add_permission : bool := false.

Definition log_has_change_permission (obj : option RoomActivityLog) : bool :=
  false.

(** [RoomActivityLogAdmin.has_delete_permission]; [is_superuser] is
    [request.user.is_superuser]. *)
Definition log_has_delete_permission (is_superuser : bool)
    (obj : option RoomActivityLog) : bool :=
  is_superuser.

(** [SystemSettingsAdmin.has_add_permission] on a database that does what
    the statements say: [SystemSettings.objects.exists()] is whether the
    table holds any row, under whatever key. *)
Definition has_add_permission (w : World (gmap Z SettingsRow)) : bool :=
  if bool_decide (store w <> ∅) then false else true.

Section Str.
(** [datetime.strftime('%Y-%m-%d %H:%M')], which the program takes from
    Python. *)
Context (strftime : Z -> string).

(** [SystemSettings.__str__]; [None] when it raises [AttributeError],
    which [self.updated_at.strftime] does on an instance whose
    [updated_at] is [None]. *)
Definition SystemSettings_str (self : SystemSettings) : option string :=
  match updated_at self with
  | Some t => Some ("System Settings (Updated: " ++ strftime t ++ ")")
  | None => None
  end.
End Str.
End Display.

(** ** A database with another writer

    Besides the table, the state holds what another process does to it:
    one entry per statement this program sends, applied right after that
    statement.  [Some r] is the other process inserting [r] under key 1
    (which does nothing when the key is taken); [None] is the other
    process doing nothing. *)
Definition Shared : Type := gmap Z SettingsRow * list (option SettingsRow).

Definition other_writer (s : Shared) : Shared :=
  match s.2 with
  | [] => s
  | None :: rest => (s.1, rest)
  | Some r :: rest =>
      (match s.1 !! 1 with
       | Some _ => s.1
       | None => <[1 := r]> s.1
       end, rest)
  end.

Definition shared : Backend Shared := {|
  sql_select k s := (Ok (s.1 !! k), other_writer s);
  sql_exists k s := (Ok (bool_decide (is_Some (s.1 !! k))), other_writer s);
  sql_update k h a s :=
    match s.1 !! k with
    | Some r =>
        (Ok 1%nat,
         other_writer
           (<[k := mkSettingsRow h (row_created_at r) (row_updated_at r) a]>
              s.1, s.2))
    | None => (Ok 0%nat, other_writer s)
    end;
  sql_insert k r s :=
    match s.1 !! k with
    | Some _ => (Raise IntegrityError, other_writer s)
    | None => (Ok tt, other_writer (<[k := r]> s.1, s.2))
    end;
|}.

(** A settings row whose password hash is empty, and a world that holds
    it under key 1. *)
Definition blank_row : SettingsRow := mkSettingsRow "" 100 100 true.

Definition blank_world : World Table := world_of {[1 := blank_row]} 500.

(** A world over the database with another writer: an empty settings
    table, what the other process will do, and the clock at 500. *)
Definition shared_world (events : list (option SettingsRow)) : World Shared :=
  mkWorld (∅, events) ∅ 500 0%nat [] [] [].

(** Where the hash that [save_model] leaves in the table can come from:
    the row that was there before, when no new password was given and
    that row's hash is not empty; the new password; or the default
    credential. *)
Definition hash_origin `{Hasher} (form : Admin.Form)
    (before : option SettingsRow) (h : string) : Prop :=
  (truthy (Admin.new_password form) = false /\ truthy h = true /\
   row_access_password_hash <$> before = Some h) \/
  (truthy (Admin.new_password form) = true /\
   exists draw, h = hasher_encode draw (Admin.new_password form)) \/
  (exists draw, h = hasher_encode draw Models.default_password).

(** * Properties *)

(** Unfolds the monad and the ORM layer down to the backend's statements. *)
Ltac unfold_m :=
  unfold Models.get_settings, Models.create, Models.save,
    Models.set_password, Models.delete, Models.new_instance,
    Orm.first, Orm.get, Orm.exists_, Orm.update, Orm.refresh_from_db,
    Orm.Model_save, Hashers.make_password, try_except, except_DoesNotExist,
    except_Exception, bind, query, ret, raise, now, log, message_user in *.

(** ** The code on the reliable database *)

Section Reliable.
Context `{Hasher}.
#[local] Existing Instance reliable.

Lemma get_existing (w : World Table) (r : SettingsRow) :
  store w !! 1 = Some r ->
  Orm.get 1 w = (Ok (Orm.from_db 1 r), with_trace (trace w ++ [QSelect 1]) w).
Proof.
  intros Hr. destruct w as [s a t n q j f]. unfold_m. cbn in *.
  rewrite Hr. reflexivity.
Qed.

Lemma get_absent (w : World Table) :
  store w !! 1 = None ->
  Orm.get 1 w = (Raise DoesNotExist, with_trace (trace w ++ [QSelect 1]) w).
Proof.
  intros Hr. destruct w as [s a t n q j f]. unfold_m. cbn in *.
  rewrite Hr. reflexivity.
Qed.

Lemma save_existing (self : SystemSettings) (w : World Table)
    (r : SettingsRow) :
  store w !! 1 = Some r ->
  Models.save self w =
    (Ok (mkSystemSettings (Some 1) (access_password_hash self)
           (Some (row_created_at r)) (Some (row_updated_at r))
           (is_active self)),
     with_store (<[1 := updated_row r self]> (store w))
       (with_trace (trace w ++ [QExists 1; QUpdate 1; QSelect 1]) w)).
Proof.
  intros Hr. destruct w as [s a t n q j f]. unfold_m. cbn in *.
  repeat (first [rewrite Hr | rewrite lookup_insert_eq]; cbn).
  unfold with_store, with_trace. cbn. rewrite <- !app_assoc. reflexivity.
Qed.

Lemma save_absent (self : SystemSettings) (w : World Table) :
  store w !! 1 = None ->
  Models.save self w =
    (Ok (mkSystemSettings (Some 1) (access_password_hash self)
           (Some (clock w)) (Some (clock w)) (is_active self)),
     with_store (<[1 := inserted_row (clock w) self]> (store w))
       (with_trace (trace w ++ [QExists 1; QInsert 1]) w)).
Proof.
  intros Hr. destruct w as [s a t n q j f]. unfold_m. cbn in *.
  repeat (rewrite Hr; cbn).
  unfold with_store, with_trace. cbn. rewrite <- !app_assoc. reflexivity.
Qed.

Lemma get_settings_existing (w : World Table) (r : SettingsRow) :
  store w !! 1 = Some r ->
  Models.get_settings w =
    (Ok (Orm.from_db 1 r),
     with_trace (trace w ++ [QSelect 1; QSelect 1]) w).
Proof.
  intros Hr. destruct w as [s a t n q j f]. unfold_m. cbn in *.
  repeat (rewrite Hr; cbn).
  unfold with_store, with_trace. cbn. rewrite <- !app_assoc. reflexivity.
Qed.

Lemma get_settings_absent (w : World Table) :
  store w !! 1 = None ->
  Models.get_settings w =
    (Ok (mkSystemSettings (Some 1)
           (hasher_encode (entropy w) Models.default_password)
           (Some (clock w)) (Some (clock w)) true),
     with_store
       (<[1 := mkSettingsRow
                 (hasher_encode (entropy w) Models.default_password)
                 (clock w) (clock w) true]> (store w))
       (with_trace (trace w ++ [QSelect 1; QExists 1; QInsert 1])
          (with_entropy (S (entropy w)) w))).
Proof.
  intros Hr. destruct w as [s a t n q j f]. unfold_m. cbn in *.
  repeat (rewrite Hr; cbn).
  unfold with_store, with_trace, with_entropy. cbn.
  rewrite <- !app_assoc. reflexivity.
Qed.

#[local] Arguments Orm.get : simpl never.
#[local] Arguments Orm.first : simpl never.
#[local] Arguments Models.save : simpl never.
#[local] Arguments Models.get_settings : simpl never.

Ltac unfold_admin :=
  unfold Admin.save_model, Admin.prepare_and_save, Admin.verify_saved,
    Admin.copy_existing, Admin.keep_existing, Models.check_password,
    Hashers.check_password in *.

(** Discharges a lookup under key 1 in the store of the current world. *)
Ltac lookup_1 Hr :=
  cbn -[insert lookup];
  first [ exact Hr | apply lookup_insert_eq ].

(** Runs the program of the goal statement by statement. *)
Ltac exec Hr :=
  unfold bind, try_except, ret, raise, except_DoesNotExist,
    except_Exception, log, message_user, Models.set_password,
    Hashers.make_password;
  repeat (cbn -[insert lookup];
    first [ erewrite get_existing by lookup_1 Hr
          | erewrite get_absent by lookup_1 Hr
          | erewrite save_existing by lookup_1 Hr
          | erewrite save_absent by lookup_1 Hr
          | rewrite insert_insert_eq
          | match goal with
            | |- context [if negb ?b then _ else _] => destruct b eqn:?
            | |- context [if ?b then _ else _] => destruct b eqn:?
            end ]).

Lemma row_eta (r : SettingsRow) :
  r = mkSettingsRow (row_access_password_hash r) (row_created_at r)
        (row_updated_at r) (row_is_active r).
Proof. destruct r; reflexivity. Qed.

Lemma nothing_changed_not_active (form : Admin.Form) :
  Admin.nothing_changed form = true -> Admin.is_active_changed form = false.
Proof.
  unfold Admin.nothing_changed, Admin.is_active_changed.
  destruct (Admin.changed_data form); [intros _ | discriminate].
  apply bool_decide_eq_false. apply not_elem_of_nil.
Qed.

Lemma prepare_and_save_existing (obj : SystemSettings) (form : Admin.Form)
    (w : World Table) (r : SettingsRow) :
  store w !! 1 = Some r ->
  exists obj' w' h',
    Admin.prepare_and_save obj form w = (Ok obj', w') /\
    store w' =
      <[1 := mkSettingsRow h' (row_created_at r) (row_updated_at r)
               (if Admin.is_active_changed form then is_active obj
                else row_is_active r)]> (store w) /\
    (forall candidate,
       candidate =
         (if truthy (Admin.new_password form)
          then hasher_encode (entropy w) (Admin.new_password form)
          else row_access_password_hash r) ->
       truthy candidate = true -> h' = candidate).
Proof.
  intros Hr. destruct w as [s a t n q j f]. unfold_admin.
  cbn -[insert lookup] in Hr.
  destruct (truthy (Admin.new_password form)) eqn:Hp,
    (Admin.is_active_changed form) eqn:Ha,
    (Admin.nothing_changed form) eqn:Hn;
    try (apply nothing_changed_not_active in Hn; congruence).
  all: exec Hr.
  all: eexists _, _, _; split; [reflexivity | split; [reflexivity |]].
  all: intros ? ->; first [congruence | intros _; reflexivity].
Qed.

Lemma prepare_and_save_absent (obj : SystemSettings) (form : Admin.Form)
    (w : World Table) :
  store w !! 1 = None ->
  exists obj' w' h',
    Admin.prepare_and_save obj form w = (Ok obj', w') /\
    store w' =
      <[1 := mkSettingsRow h' (clock w) (clock w) (is_active obj)]>
        (store w) /\
    (forall candidate,
       candidate =
         hasher_encode (entropy w)
           (if truthy (Admin.new_password form)
            then Admin.new_password form else Models.default_password) ->
       truthy candidate = true -> h' = candidate).
Proof.
  intros Hr. destruct w as [s a t n q j f]. unfold_admin.
  cbn -[insert lookup] in Hr.
  destruct (truthy (Admin.new_password form)) eqn:Hp.
  all: exec Hr.
  all: eexists _, _, _; split; [reflexivity | split; [reflexivity |]].
  all: intros ? ->; first [congruence | intros _; reflexivity].
Qed.

Lemma verify_saved_existing (form : Admin.Form) (w : World Table)
    (r : SettingsRow) :
  store w !! 1 = Some r ->
  exists w' h',
    Admin.verify_saved form w = (Ok tt, w') /\
    store w' =
      <[1 := mkSettingsRow h' (row_created_at r) (row_updated_at r)
               (row_is_active r)]> (store w) /\
    (truthy (Admin.new_password form) = false \/
     hasher_verify (Admin.new_password form) (row_access_password_hash r)
       = true ->
     h' = row_access_password_hash r).
Proof.
  intros Hr. destruct w as [s a t n q j f]. unfold_admin.
  cbn -[insert lookup] in Hr.
  destruct (truthy (Admin.new_password form)) eqn:Hp.
  all: exec Hr.
  all: eexists _, _; split; [reflexivity |].
  all: cbn -[insert lookup].
  all: split;
    [ first [ reflexivity
            | symmetry; apply insert_id; rewrite Hr; f_equal;
              apply row_eta ]
    | intros [?|?]; first [discriminate | congruence | reflexivity] ].
Qed.

Lemma save_model_existing (obj : SystemSettings) (form : Admin.Form)
    (w : World Table) (r : SettingsRow) :
  store w !! 1 = Some r ->
  exists obj' w' h',
    Admin.save_model obj form w = (Ok obj', w') /\
    store w' =
      <[1 := mkSettingsRow h' (row_created_at r) (row_updated_at r)
               (if Admin.is_active_changed form then is_active obj
                else row_is_active r)]> (store w) /\
    (forall candidate,
       candidate =
         (if truthy (Admin.new_password form)
          then hasher_encode (entropy w) (Admin.new_password form)
          else row_access_password_hash r) ->
       truthy candidate = true ->
       (truthy (Admin.new_password form) = true ->
        hasher_verify (Admin.new_password form) candidate = true) ->
       h' = candidate).
Proof.
  intros Hr.
  destruct (prepare_and_save_existing obj form w r Hr)
    as (obj1 & w1 & h1 & Hrun1 & Hstore1 & Hh1).
  assert (Hr1 : store w1 !! 1 =
                Some (mkSettingsRow h1 (row_created_at r) (row_updated_at r)
                        (if Admin.is_active_changed form then is_active obj
                         else row_is_active r))).
  { rewrite Hstore1. apply lookup_insert_eq. }
  destruct (verify_saved_existing form w1 _ Hr1)
    as (w2 & h2 & Hrun2 & Hstore2 & Hh2).
  exists obj1, w2, h2. split; [| split].
  - unfold Admin.save_model, bind. rewrite Hrun1, Hrun2. reflexivity.
  - rewrite Hstore2, Hstore1. cbn -[insert]. apply insert_insert_eq.
  - intros candidate Hc Htruthy Hverify.
    specialize (Hh1 candidate Hc Htruthy). subst h1.
    cbn in Hh2. apply Hh2.
    destruct (truthy (Admin.new_password form)); [right | left]; auto.
Qed.

Lemma save_model_absent (obj : SystemSettings) (form : Admin.Form)
    (w : World Table) :
  store w !! 1 = None ->
  exists obj' w' h',
    Admin.save_model obj form w = (Ok obj', w') /\
    store w' =
      <[1 := mkSettingsRow h' (clock w) (clock w) (is_active obj)]>
        (store w) /\
    (forall candidate,
       candidate =
         hasher_encode (entropy w)
           (if truthy (Admin.new_password form)
            then Admin.new_password form else Models.default_password) ->
       truthy candidate = true ->
       (truthy (Admin.new_password form) = true ->
        hasher_verify (Admin.new_password form) candidate = true) ->
       h' = candidate).
Proof.
  intros Hr.
  destruct (prepare_and_save_absent obj form w Hr)
    as (obj1 & w1 & h1 & Hrun1 & Hstore1 & Hh1).
  assert (Hr1 : store w1 !! 1 =
                Some (mkSettingsRow h1 (clock w) (clock w) (is_active obj))).
  { rewrite Hstore1. apply lookup_insert_eq. }
  destruct (verify_saved_existing form w1 _ Hr1)
    as (w2 & h2 & Hrun2 & Hstore2 & Hh2).
  exists obj1, w2, h2. split; [| split].
  - unfold Admin.save_model, bind. rewrite Hrun1, Hrun2. reflexivity.
  - rewrite Hstore2, Hstore1. cbn -[insert]. apply insert_insert_eq.
  - intros candidate Hc Htruthy Hverify.
    specialize (Hh1 candidate Hc Htruthy). subst h1.
    cbn in Hh2. apply Hh2.
    destruct (truthy (Admin.new_password form)); [right | left]; auto.
Qed.


(** What one call does to the settings table: it returns, and the table
    is the one before or differs from it under key 1 only. *)
Lemma perform_spec (c : Call) (w : World Table) :
  exists w',
    perform c w = (Ok tt, w') /\
    (store w' = store w /\ (writes c = true -> is_Some (store w !! 1)) \/
     exists r', store w' = <[1 := r']> (store w)).
Proof.
  destruct c as [| obj | obj form | obj]; cbn [perform writes].
  - destruct (store w !! 1) as [r |] eqn:Hr.
    + eexists. unfold bind. rewrite (get_settings_existing w r Hr).
      split; [reflexivity |]. left.
      split; [reflexivity | intros _; eauto].
    + eexists. unfold bind. rewrite (get_settings_absent w Hr).
      split; [reflexivity |]. right. eexists. reflexivity.
  - destruct (store w !! 1) as [r |] eqn:Hr.
    + eexists. unfold bind. rewrite (save_existing obj w r Hr).
      split; [reflexivity |]. right. eexists. reflexivity.
    + eexists. unfold bind. rewrite (save_absent obj w Hr).
      split; [reflexivity |]. right. eexists. reflexivity.
  - destruct (store w !! 1) as [r |] eqn:Hr.
    + destruct (save_model_existing obj form w r Hr)
        as (obj' & w' & h' & Hrun & Hstore & _).
      exists w'. unfold bind. rewrite Hrun. split; [reflexivity |].
      right. eauto.
    + destruct (save_model_absent obj form w Hr)
        as (obj' & w' & h' & Hrun & Hstore & _).
      exists w'. unfold bind. rewrite Hrun. split; [reflexivity |].
      right. eauto.
  - exists w. split; [reflexivity |]. left. split; [reflexivity |].
    discriminate.
Qed.

(** What a sequence of calls does to the settings table. *)
Lemma perform_all_spec (cs : list Call) (w : World Table) :
  exists w',
    perform_all cs w = Some w' /\
    (forall k, k <> 1 -> store w' !! k = store w !! k) /\
    (is_Some (store w !! 1) \/ existsb writes cs = true ->
     is_Some (store w' !! 1)).
Proof.
  revert w. induction cs as [| c cs IH]; intros w.
  - exists w. cbn. split; [reflexivity |]. split; [reflexivity |].
    intros [? | ?]; [assumption | discriminate].
  - destruct (perform_spec c w) as (w1 & Hrun & Hstore).
    destruct (IH w1) as (w2 & Hrest & Hframe & Hpresent).
    exists w2. cbn [perform_all existsb]. rewrite Hrun.
    split; [exact Hrest |].
    destruct Hstore as [[Hsame Hwrites] | [r' Hins]].
    + rewrite Hsame in *. split; [exact Hframe |].
      intros [Hw | Hc]; apply Hpresent; [left; exact Hw |].
      apply orb_true_iff in Hc as [Hc | Hc]; [left; auto | right; exact Hc].
    + split.
      * intros k Hk. rewrite Hframe by exact Hk. rewrite Hins.
        apply lookup_insert_ne. congruence.
      * intros _. apply Hpresent. left. rewrite Hins.
        rewrite lookup_insert_eq. eauto.
Qed.

(** ** The singleton *)

(** C1, amended.  A sequence of [get_settings], [save], [save_model] and
    [delete] calls that holds at least one call other than [delete] runs
    to its end without raising; afterwards the keys of the settings table
    are the keys it started with and key 1, and every record under another
    key is as it was.  So when the table started with no record under
    another key, it ends with exactly one record, under key 1. *)
Theorem settings_singleton (cs : list Call) (w : World Table) :
  existsb writes cs = true ->
  exists w',
    perform_all cs w = Some w' /\
    dom (store w') = dom (store w) ∪ {[1]} /\
    (forall k, k <> 1 -> store w' !! k = store w !! k) /\
    (dom (store w) ⊆ {[1]} -> size (store w') = 1%nat).
Proof.
  intros Hwrites.
  destruct (perform_all_spec cs w) as (w' & Hrun & Hframe & Hpresent).
  assert (Hdom : dom (store w') = dom (store w) ∪ {[1]}).
  { apply set_eq. intros k.
    rewrite elem_of_union, !elem_of_dom, elem_of_singleton.
    destruct (decide (k = 1)) as [-> | Hk].
    - split; [right; reflexivity | intros _; apply Hpresent; right; exact Hwrites].
    - rewrite Hframe by exact Hk. tauto. }
  exists w'. repeat split; [exact Hrun | exact Hdom | exact Hframe |].
  intros Honly. rewrite <- size_dom, Hdom.
  rewrite (subseteq_union_1_L _ _ Honly). apply size_singleton.
Qed.

(** C5, amended.  When no settings record exists, [get_settings] creates
    one under key 1 with the hash of the default credential,
    [is_active = True] and both timestamps at the current time, and
    returns the instance it has just written: its fields are those of the
    stored row, and the INSERT is the last statement sent, so nothing is
    read back. *)
Theorem get_settings_creates (w : World Table) :
  store w !! 1 = None ->
  exists settings w',
    Models.get_settings w = (Ok settings, w') /\
    access_password_hash settings =
      hasher_encode (entropy w) Models.default_password /\
    is_active settings = true /\
    created_at settings = Some (clock w) /\
    updated_at settings = Some (clock w) /\
    Orm.from_db 1 <$> store w' !! 1 = Some settings /\
    (forall k, k <> 1 -> store w' !! k = store w !! k) /\
    trace w' = (trace w ++ [QSelect 1; QExists 1; QInsert 1])%list.
Proof.
  intros Hr. eexists _, _. rewrite (get_settings_absent w Hr).
  split; [reflexivity |]. cbn -[insert lookup].
  repeat split.
  - rewrite lookup_insert_eq. reflexivity.
  - intros k Hk. apply lookup_insert_ne. congruence.
Qed.

(** C8.  Two calls of [get_settings] with no write in between, however
    much time passes between them, return instances with the same
    password hash and the same creation time; the second call leaves the
    table as the first left it. *)
Theorem get_settings_idempotent (w : World Table) (t : Z) (n : nat) :
  exists settings1 w1 settings2 w2,
    Models.get_settings w = (Ok settings1, w1) /\
    Models.get_settings (with_clock t (with_entropy n w1))
      = (Ok settings2, w2) /\
    access_password_hash settings2 = access_password_hash settings1 /\
    created_at settings2 = created_at settings1 /\
    store w2 = store w1.
Proof.
  destruct (store w !! 1) as [r |] eqn:Hr.
  - rewrite (get_settings_existing w r Hr).
    eexists _, _, _, _. split; [reflexivity |].
    erewrite get_settings_existing by exact Hr.
    repeat split.
  - rewrite (get_settings_absent w Hr).
    eexists _, _, _, _. split; [reflexivity |].
    erewrite get_settings_existing
      by (cbn -[insert lookup]; apply lookup_insert_eq).
    repeat split.
Qed.

(** ** What a password change leaves of the record *)

(** C4, as the code has it.  [save_model] on an existing record keeps
    the stored [created_at], keeps the stored [is_active] unless the form
    changed it, and also keeps the stored [updated_at]: the UPDATE that
    [save] sends does not touch it, whatever the clock says. *)
Theorem save_model_keeps_updated_at (obj : SystemSettings)
    (form : Admin.Form) (w : World Table) (r : SettingsRow) :
  store w !! 1 = Some r ->
  exists obj' w' r',
    Admin.save_model obj form w = (Ok obj', w') /\
    store w' !! 1 = Some r' /\
    row_created_at r' = row_created_at r /\
    row_updated_at r' = row_updated_at r /\
    (Admin.is_active_changed form = false ->
     row_is_active r' = row_is_active r).
Proof.
  intros Hr.
  destruct (save_model_existing obj form w r Hr)
    as (obj' & w' & h' & Hrun & Hstore & _).
  eexists obj', w', _. split; [exact Hrun |].
  rewrite Hstore, lookup_insert_eq. repeat split.
  cbn. intros ->. reflexivity.
Qed.

(** ** Through the admin and back *)

Lemma truthy_nonempty (s : string) : s <> EmptyString -> truthy s = true.
Proof. destruct s; [congruence | reflexivity]. Qed.

(** A password change through [save_model], whatever the table held
    before, is what [get_settings] then reads: the hash in the table and
    in the instance it returns is the encoding of the new password, and
    that instance verifies the new password. *)
Theorem password_change_round_trip `{!HasherLaws} (obj : SystemSettings)
    (p : string) (changed : list string) (w : World Table) :
  p <> EmptyString ->
  exists obj' w1 r1 settings w2,
    Admin.save_model obj (Admin.mkForm p p changed) w = (Ok obj', w1) /\
    store w1 !! 1 = Some r1 /\
    row_access_password_hash r1 = hasher_encode (entropy w) p /\
    Models.get_settings w1 = (Ok settings, w2) /\
    access_password_hash settings = hasher_encode (entropy w) p /\
    Models.check_password settings p = true.
Proof.
  intros Hp. apply truthy_nonempty in Hp.
  assert (Hstored : exists obj' w1 r1,
             Admin.save_model obj (Admin.mkForm p p changed) w = (Ok obj', w1)
             /\ store w1 !! 1 = Some r1
             /\ row_access_password_hash r1 = hasher_encode (entropy w) p).
  { destruct (store w !! 1) as [r |] eqn:Hr.
    - destruct (save_model_existing obj (Admin.mkForm p p changed) w r Hr)
        as (obj' & w1 & h' & Hrun & Hstore & Hh).
      eexists obj', w1, _. split; [exact Hrun |].
      rewrite Hstore, lookup_insert_eq. split; [reflexivity |].
      cbn in *. rewrite Hp in Hh. apply Hh; [reflexivity | |].
      + apply truthy_nonempty, encode_truthy.
      + intros _. apply verify_encode.
    - destruct (save_model_absent obj (Admin.mkForm p p changed) w Hr)
        as (obj' & w1 & h' & Hrun & Hstore & Hh).
      eexists obj', w1, _. split; [exact Hrun |].
      rewrite Hstore, lookup_insert_eq. split; [reflexivity |].
      cbn in *. rewrite Hp in Hh. apply Hh; [reflexivity | |].
      + apply truthy_nonempty, encode_truthy.
      + intros _. apply verify_encode. }
  destruct Hstored as (obj' & w1 & r1 & Hrun & Hr1 & Hhash).
  exists obj', w1, r1. eexists _, _. split; [exact Hrun |].
  split; [exact Hr1 |]. split; [exact Hhash |].
  rewrite (get_settings_existing w1 r1 Hr1). split; [reflexivity |].
  unfold Models.check_password, Hashers.check_password. cbn.
  rewrite Hhash. split; [reflexivity |]. apply verify_encode.
Qed.

(** A change of [is_active] alone through [save_model], on a record
    whose hash is not empty, is what [get_settings] then reads, next to
    the password hash and the creation time the record had before. *)
Theorem set_active_keeps_password (obj : SystemSettings)
    (form : Admin.Form) (w : World Table) (r : SettingsRow) :
  store w !! 1 = Some r ->
  row_access_password_hash r <> EmptyString ->
  Admin.new_password form = EmptyString ->
  Admin.is_active_changed form = true ->
  exists obj' w1 settings w2,
    Admin.save_model obj form w = (Ok obj', w1) /\
    Models.get_settings w1 = (Ok settings, w2) /\
    is_active settings = is_active obj /\
    access_password_hash settings = row_access_password_hash r /\
    created_at settings = Some (row_created_at r).
Proof.
  intros Hr Hhash Hp Hactive.
  destruct (save_model_existing obj form w r Hr)
    as (obj' & w1 & h' & Hrun & Hstore & Hh).
  rewrite Hp, Hactive in *. cbn in Hh.
  specialize (Hh _ eq_refl (truthy_nonempty _ Hhash)).
  rewrite Hh in Hstore by discriminate.
  exists obj', w1. eexists _, _. split; [exact Hrun |].
  erewrite get_settings_existing
    by (rewrite Hstore; apply lookup_insert_eq).
  repeat split.
Qed.

(** [save] is an upsert under key 1: it never raises; a record that was
    there keeps its timestamps and takes the instance's hash and flag; a
    record that was not there is inserted with both timestamps at the
    current time; no other key is touched. *)
Theorem save_is_upsert (self : SystemSettings) (w : World Table) :
  exists self' w',
    Models.save self w = (Ok self', w') /\
    pk self' = Some 1 /\
    store w' =
      <[1 := match store w !! 1 with
             | Some r => updated_row r self
             | None => inserted_row (clock w) self
             end]> (store w).
Proof.
  destruct (store w !! 1) as [r |] eqn:Hr.
  - rewrite (save_existing self w r Hr). eexists _, _.
    split; [reflexivity |]. split; reflexivity.
  - rewrite (save_absent self w Hr). eexists _, _.
    split; [reflexivity |]. split; reflexivity.
Qed.

(** ** More of the settings code on the reliable database *)

(** Once a call that writes has run, the admin offers no "add": the
    table is not empty any more.  And "add" is offered exactly when the
    table is empty. *)
Theorem has_add_permission_after_write (cs : list Call) (w : World Table) :
  existsb writes cs = true ->
  (Display.has_add_permission w = true <-> store w = ∅) /\
  exists w',
    perform_all cs w = Some w' /\
    Display.has_add_permission w' = false.
Proof.
  intros Hwrites. split.
  - unfold Display.has_add_permission. case_bool_decide as Hempty.
    + split; [discriminate | contradiction].
    + split; [intros _ | reflexivity].
      destruct (decide (store w = ∅)); [assumption | contradiction].
  - destruct (perform_all_spec cs w) as (w' & Hrun & _ & Hpresent).
    exists w'. split; [exact Hrun |].
    unfold Display.has_add_permission. rewrite bool_decide_eq_true_2;
      [reflexivity |].
    intros Hempty. destruct Hpresent as [r Hr]; [right; exact Hwrites |].
    rewrite Hempty, lookup_empty in Hr. discriminate.
Qed.

(** [str] of an instance that [save] has returned never raises, and the
    time it shows is the stored [updated_at] when the record was there
    before, the current time when it was not; [str] of an instance that
    was never saved or loaded raises. *)
Theorem str_after_save (strftime : Z -> string) (self : SystemSettings)
    (w : World Table) :
  exists self' w',
    Models.save self w = (Ok self', w') /\
    Display.SystemSettings_str strftime self'
      = Some ("System Settings (Updated: "
              ++ strftime (match store w !! 1 with
                           | Some r => row_updated_at r
                           | None => clock w
                           end)
              ++ ")") /\
    Display.SystemSettings_str strftime
      (Models.new_instance (pk self) (access_password_hash self)
         (is_active self)) = None.
Proof.
  destruct (store w !! 1) as [r |] eqn:Hr.
  - rewrite (save_existing self w r Hr). eexists _, _.
    split; [reflexivity |]. split; reflexivity.
  - rewrite (save_absent self w Hr). eexists _, _.
    split; [reflexivity |]. split; reflexivity.
Qed.

(** The default credential: when no record exists, [get_settings]
    leaves in the table an active record that the password [admin123]
    opens, and returns it; and an admin save that gives no new password
    leaves in the table a record that [admin123] opens. *)
Theorem default_credential `{!HasherLaws} (obj : SystemSettings)
    (form : Admin.Form) (w : World Table) :
  store w !! 1 = None ->
  Admin.new_password form = EmptyString ->
  (exists settings w1 r,
     Models.get_settings w = (Ok settings, w1) /\
     store w1 !! 1 = Some r /\
     hasher_verify Models.default_password (row_access_password_hash r)
       = true /\
     row_is_active r = true /\
     settings = Orm.from_db 1 r) /\
  (exists obj' w1 r,
     Admin.save_model obj form w = (Ok obj', w1) /\
     store w1 !! 1 = Some r /\
     hasher_verify Models.default_password (row_access_password_hash r)
       = true /\
     row_is_active r = is_active obj).
Proof.
  intros Hr Hp. split.
  - rewrite (get_settings_absent w Hr). eexists _, _, _.
    split; [reflexivity |]. cbn -[insert lookup].
    rewrite lookup_insert_eq. split; [reflexivity |].
    split; [apply verify_encode |]. split; reflexivity.
  - destruct (save_model_absent obj form w Hr)
      as (obj' & w1 & h' & Hrun & Hstore & Hh).
    rewrite Hp in Hh. cbn in Hh.
    specialize (Hh _ eq_refl (truthy_nonempty _ (encode_truthy _ _))).
    rewrite Hh in Hstore by discriminate.
    eexists obj', w1, _. split; [exact Hrun |].
    rewrite Hstore, lookup_insert_eq. split; [reflexivity |].
    split; [apply verify_encode | reflexivity].
Qed.

Ltac origin :=
  unfold hash_origin; cbn -[insert lookup] in *;
  first [ left; split; [congruence | split; [assumption | reflexivity]]
        | right; left; split; [congruence | eexists; reflexivity]
        | right; right; eexists; reflexivity ].

Lemma prepare_and_save_origin (obj : SystemSettings) (form : Admin.Form)
    (w : World Table) :
  exists obj' w' r',
    Admin.prepare_and_save obj form w = (Ok obj', w') /\
    store w' !! 1 = Some r' /\
    hash_origin form (store w !! 1) (row_access_password_hash r').
Proof.
  destruct w as [s a t n q j f]. unfold_admin. cbn -[insert lookup].
  destruct (s !! 1) as [r |] eqn:Hr;
    destruct (truthy (Admin.new_password form)) eqn:Hp,
      (Admin.is_active_changed form) eqn:Ha,
      (Admin.nothing_changed form) eqn:Hn.
  all: exec Hr.
  all: eexists _, _, _; split; [reflexivity |].
  all: cbn -[insert lookup]; rewrite lookup_insert_eq.
  all: split; [reflexivity |].
  all: origin.
Qed.

Lemma verify_saved_origin (form : Admin.Form) (w : World Table)
    (r : SettingsRow) :
  store w !! 1 = Some r ->
  exists w' r',
    Admin.verify_saved form w = (Ok tt, w') /\
    store w' !! 1 = Some r' /\
    (row_access_password_hash r' = row_access_password_hash r \/
     truthy (Admin.new_password form) = true /\
     exists draw,
       row_access_password_hash r'
         = hasher_encode draw (Admin.new_password form)).
Proof.
  intros Hr. destruct w as [s a t n q j f]. unfold_admin.
  cbn -[insert lookup] in Hr.
  destruct (truthy (Admin.new_password form)) eqn:Hp.
  all: exec Hr.
  all: eexists _, _; split; [reflexivity |].
  all: cbn -[insert lookup]; rewrite ?lookup_insert_eq.
  all: split; [first [reflexivity | exact Hr] |].
  all: first [ left; reflexivity
             | right; split; [reflexivity | eexists; reflexivity] ].
Qed.

Lemma save_model_origin (obj : SystemSettings) (form : Admin.Form)
    (w : World Table) :
  exists obj' w' r',
    Admin.save_model obj form w = (Ok obj', w') /\
    store w' !! 1 = Some r' /\
    hash_origin form (store w !! 1) (row_access_password_hash r').
Proof.
  destruct (prepare_and_save_origin obj form w)
    as (obj1 & w1 & r1 & Hrun1 & Hr1 & Horigin).
  destruct (verify_saved_origin form w1 r1 Hr1)
    as (w2 & r2 & Hrun2 & Hr2 & Hkept).
  exists obj1, w2, r2. split; [| split; [exact Hr2 |]].
  - unfold Admin.save_model, bind. rewrite Hrun1, Hrun2. reflexivity.
  - destruct Hkept as [-> | [Hp Hnew]]; [exact Horigin |].
    right. left. split; assumption.
Qed.

(** [save_model] never leaves the record without a password: the stored
    hash is not empty and the admin column says so.  When no new
    password is given, a record whose hash was empty comes out with the
    default credential: [admin123] opens it. *)
Theorem save_model_sets_a_password `{!HasherLaws} (obj : SystemSettings)
    (form : Admin.Form) (w : World Table) :
  exists obj' w' r',
    Admin.save_model obj form w = (Ok obj', w') /\
    store w' !! 1 = Some r' /\
    row_access_password_hash r' <> EmptyString /\
    Display.password_status (Orm.from_db 1 r') = Display.status_set /\
    (forall r,
       store w !! 1 = Some r ->
       row_access_password_hash r = EmptyString ->
       Admin.new_password form = EmptyString ->
       hasher_verify Models.default_password (row_access_password_hash r')
         = true).
Proof.
  destruct (save_model_origin obj form w)
    as (obj' & w' & r' & Hrun & Hr' & Horigin).
  assert (Htruthy : truthy (row_access_password_hash r') = true).
  { destruct Horigin as [(_ & Ht & _) | [(_ & d & ->) | (d & ->)]];
      [exact Ht | |]; apply truthy_nonempty, encode_truthy. }
  exists obj', w', r'. split; [exact Hrun |]. split; [exact Hr' |].
  split; [| split].
  - intros Hempty. rewrite Hempty in Htruthy. discriminate.
  - unfold Display.password_status. cbn. rewrite Htruthy. reflexivity.
  - intros r Hr Hblank Hp. unfold hash_origin in Horigin.
    rewrite Hr, Hp in Horigin.
    destruct Horigin as [(_ & Ht & Hsame) | [(Hno & _) | (d & ->)]].
    + cbn in Hsame. injection Hsame as Hsame. rewrite <- Hsame, Hblank in Ht.
      discriminate.
    + discriminate.
    + apply verify_encode.
Qed.

(** Closes a case that a lawful hasher excludes. *)
Ltac lawful :=
  match goal with
  | Hv : hasher_verify ?p (hasher_encode ?d ?p) = false |- _ =>
      rewrite verify_encode in Hv; discriminate
  | Ht : truthy (hasher_encode ?d ?p) = false |- _ =>
      rewrite (truthy_nonempty _ (encode_truthy d p)) in Ht; discriminate
  end.

(** On a database that keeps its writes, [save_model] sends one write
    and never takes its retry: 4 SELECTs, 1 EXISTS and 1 UPDATE when
    the record is there, 3 SELECTs, 1 EXISTS and 1 INSERT when it is
    not; nothing it logs is a failure or a retry; and it tells the
    administrator that the password was changed exactly when a new
    password was given. *)
Theorem save_model_statements `{!HasherLaws} (obj : SystemSettings)
    (form : Admin.Form) (w : World Table) :
  exists obj' w' news,
    Admin.save_model obj form w = (Ok obj', w') /\
    trace w' =
      (trace w ++
       match store w !! 1 with
       | Some _ =>
           [QSelect 1; QSelect 1; QExists 1; QUpdate 1; QSelect 1; QSelect 1]
       | None => [QSelect 1; QSelect 1; QExists 1; QInsert 1; QSelect 1]
       end)%list /\
    journal w' = (journal w ++ news)%list /\
    ~ In ErrorNotSaved news /\
    ~ In InfoRetried news /\
    flashes w' =
      (flashes w ++
       if truthy (Admin.new_password form) then [PasswordChanged] else [])%list.
Proof.
  destruct w as [s a t n q j f]. unfold_admin. cbn -[insert lookup].
  destruct (s !! 1) as [r |] eqn:Hr;
    destruct (truthy (Admin.new_password form)) eqn:Hp,
      (Admin.is_active_changed form) eqn:Ha,
      (Admin.nothing_changed form) eqn:Hn.
  all: exec Hr.
  all: try lawful.
  all: eexists _, _, _; split; [reflexivity |].
  all: cbn -[insert lookup]; rewrite <- ?app_assoc.
  all: split; [reflexivity |].
  all: split; [reflexivity |].
  all: split; [cbn; intuition discriminate |].
  all: split; [cbn; intuition discriminate |].
  all: rewrite ?app_nil_r; reflexivity.
Qed.

(** Every [save_model] writes to the log the first 30 characters of the
    password hash that it leaves in the table. *)
Theorem save_model_logs_hash_prefix `{!HasherLaws} (obj : SystemSettings)
    (form : Admin.Form) (w : World Table) :
  exists obj' w' r' news,
    Admin.save_model obj form w = (Ok obj', w') /\
    store w' !! 1 = Some r' /\
    journal w' = (journal w ++ news)%list /\
    In (InfoSaving (Some 1) true
          (substring 0 30 (row_access_password_hash r'))) news.
Proof.
  destruct w as [s a t n q j f]. unfold_admin. cbn -[insert lookup].
  destruct (s !! 1) as [r |] eqn:Hr;
    destruct (truthy (Admin.new_password form)) eqn:Hp,
      (Admin.is_active_changed form) eqn:Ha,
      (Admin.nothing_changed form) eqn:Hn.
  all: exec Hr.
  all: try lawful.
  all: eexists _, _, _, _; split; [reflexivity |].
  all: cbn -[insert lookup]; rewrite ?lookup_insert_eq, <- ?app_assoc.
  all: split; [first [reflexivity | exact Hr] |].
  all: split; [reflexivity |].
  all: unfold Admin.hash_preview; cbn -[substring] in *.
  all: rewrite ?(truthy_nonempty _ (encode_truthy _ _)).
  all: repeat match goal with
         | Ht : truthy ?h = true |- context [truthy ?h] => rewrite Ht
         end.
  all: cbn -[substring]; auto 10.
Qed.

(** ** Setting a password and checking it *)

(** C2, amended.  After [set_password(p)] on an instance, for any
    password [p], [check_password(p)] on that instance is true; and after
    [save()], the instance that [get_settings] reads from the table
    carries the same hash and [check_password(p)] on it is true. *)
Theorem set_password_then_check `{!HasherLaws} (self : SystemSettings)
    (p : string) (w : World Table) :
  exists self1 w1 self2 w2 settings w3,
    Models.set_password self p w = (Ok self1, w1) /\
    Models.check_password self1 p = true /\
    Models.save self1 w1 = (Ok self2, w2) /\
    Models.get_settings w2 = (Ok settings, w3) /\
    access_password_hash settings = access_password_hash self1 /\
    Models.check_password settings p = true.
Proof.
  eexists _, _.
  assert (Hset : Models.set_password self p w
                 = (Ok (Models.set_access_password_hash
                          (hasher_encode (entropy w) p) self),
                    with_entropy (S (entropy w)) w)) by reflexivity.
  destruct (store w !! 1) as [r |] eqn:Hr.
  - eexists _, _, _, _. split; [exact Hset |].
    split; [apply verify_encode |].
    erewrite save_existing by exact Hr. split; [reflexivity |].
    erewrite get_settings_existing
      by (cbn -[insert lookup]; apply lookup_insert_eq).
    split; [reflexivity |]. split; [reflexivity |]. apply verify_encode.
  - eexists _, _, _, _. split; [exact Hset |].
    split; [apply verify_encode |].
    erewrite save_absent by exact Hr. split; [reflexivity |].
    erewrite get_settings_existing
      by (cbn -[insert lookup]; apply lookup_insert_eq).
    split; [reflexivity |]. split; [reflexivity |]. apply verify_encode.
Qed.
End Reliable.

(** ** The code on any database *)

Section AnyBackend.
Context {db : Type} `{Backend db} `{Hasher}.

#[local] Arguments Models.save : simpl never.

(** The look at what was saved never raises: whatever happens in it is
    caught and logged. *)
Lemma verify_saved_returns (form : Admin.Form) (w : World db) :
  exists w', Admin.verify_saved form w = (Ok tt, w').
Proof.
  unfold Admin.verify_saved, Orm.get, try_except, except_Exception, bind,
    query, ret, raise, log, Models.set_password, Hashers.make_password.
  destruct (sql_select 1 (store w)) as [[[r |] | e] s1]; cbn.
  - destruct (truthy (Admin.new_password form)
              && Models.check_password (Orm.from_db 1 r)
                   (Admin.new_password form)); cbn.
    + eauto.
    + destruct (truthy (Admin.new_password form)); cbn; [| eauto].
      match goal with
      | |- context [Models.save ?o ?v] =>
          destruct (Models.save o v) as [[? | ?] ?]
      end; cbn; eauto.
  - eauto.
  - eauto.
Qed.

(** [save_model] raises only what was raised before the look at what was
    saved. *)
Lemma save_model_returns (obj : SystemSettings) (form : Admin.Form)
    (w : World db) (obj1 : SystemSettings) (w1 : World db) :
  Admin.prepare_and_save obj form w = (Ok obj1, w1) ->
  exists w2, Admin.save_model obj form w = (Ok obj1, w2).
Proof.
  intros Hrun. destruct (verify_saved_returns form w1) as (w2 & Hverify).
  exists w2. unfold Admin.save_model, bind. rewrite Hrun, Hverify.
  reflexivity.
Qed.

(** C6, amended.  After [obj.save()], [save_model] reads the record under
    key 1 again.  When a new password was given and the record read does
    not verify it, [save_model] logs the failure, sets the password on the
    instance it read and calls [save] once more.  It does not look again:
    whether that second [save] returns or raises is logged, and
    [save_model] returns normally either way. *)
Theorem save_model_retries_once (obj : SystemSettings) (form : Admin.Form)
    (w : World db) (obj1 : SystemSettings) (w1 : World db)
    (r : SettingsRow) (s1 : db) :
  Admin.prepare_and_save obj form w = (Ok obj1, w1) ->
  sql_select 1 (store w1) = (Ok (Some r), s1) ->
  truthy (Admin.new_password form) = true ->
  hasher_verify (Admin.new_password form) (row_access_password_hash r)
    = false ->
  Admin.save_model obj form w =
    match
      Models.save
        (Models.set_access_password_hash
           (hasher_encode (entropy w1) (Admin.new_password form))
           (Orm.from_db 1 r))
        (with_entropy (S (entropy w1))
           (with_journal
              (journal w1 ++
               [InfoSaved (Some 1)
                  (String.length (row_access_password_hash r));
                ErrorNotSaved])
              (with_store s1 (with_trace (trace w1 ++ [QSelect 1]) w1))))
    with
    | (Ok _, w2) => (Ok obj1, with_journal (journal w2 ++ [InfoRetried]) w2)
    | (Raise e, w2) =>
        (Ok obj1, with_journal (journal w2 ++ [ErrorVerifying e]) w2)
    end%list.
Proof.
  intros Hrun Hselect Hp Hverify.
  unfold Admin.save_model, bind at 1. rewrite Hrun.
  unfold Admin.verify_saved, Orm.get, try_except, except_Exception, bind,
    query, ret, raise, log, Models.set_password, Hashers.make_password,
    Models.check_password, Hashers.check_password.
  rewrite Hselect. cbn. rewrite Hp, Hverify. cbn.
  destruct w1 as [s a t n q j f]. cbn.
  unfold with_entropy, with_journal, with_store, with_trace. cbn.
  rewrite <- !app_assoc. cbn.
  match goal with
  | |- context [Models.save ?o ?v] =>
      destruct (Models.save o v) as [[? | ?] ?]
  end; reflexivity.
Qed.

(** ** Passwords *)

Lemma py_len_nonempty (p : string) : (0 < py_len p)%nat -> p <> EmptyString.
Proof. intros Hlen ->. cbn in Hlen. lia. Qed.

(** C3, amended.  A password of 1 to 5 characters, submitted with a
    matching confirmation, is refused by [clean] with the "too short"
    validation error; the submission ends with that error, [save_model]
    does not run, and nothing changes: not the stored hash, not anything
    else. *)
Theorem short_password_rejected (obj : SystemSettings) (p : string)
    (changed : list string) (w : World db) :
  (0 < py_len p < 6)%nat ->
  Admin.clean (Admin.mkForm p p changed)
    = Raise (ValidationError Admin.msg_too_short) /\
  Admin.changeform_view obj (Admin.mkForm p p changed) w
    = (Raise (ValidationError Admin.msg_too_short), w).
Proof.
  intros [Hpos Hshort].
  assert (Hclean : Admin.clean (Admin.mkForm p p changed)
                   = Raise (ValidationError Admin.msg_too_short)).
  { unfold Admin.clean. cbn [Admin.new_password Admin.confirm_password].
    rewrite (truthy_nonempty _ (py_len_nonempty _ Hpos)).
    cbn [orb negb]. rewrite String.eqb_refl. cbn [negb].
    destruct (Nat.ltb_spec (py_len p) 6) as [_ | Hge];
      [reflexivity | lia]. }
  split; [exact Hclean |].
  unfold Admin.changeform_view. rewrite Hclean. reflexivity.
Qed.

(** ** Deleting the settings record *)

(** C9.  [delete] on a settings instance returns normally and changes
    nothing, in storage or elsewhere; and the admin never grants the
    permission to delete one. *)
Theorem delete_does_nothing (self : SystemSettings) (w : World db) :
  Models.delete self w = (Ok tt, w) /\
  Admin.has_delete_permission (Some self) = false /\
  Admin.has_delete_permission None = false.
Proof. repeat split. Qed.

(** ** The activity log *)

Lemma not_older_than_older (old_date : Z) (m : gmap Z RoomActivityLog) :
  filter (Admin.older_than old_date)
    (filter (fun entry => ~ Admin.older_than old_date entry) m) = ∅.
Proof.
  apply map_eq. intros k. rewrite lookup_empty.
  apply map_lookup_filter_None. right. intros e He.
  apply map_lookup_filter_Some in He. tauto.
Qed.

Lemma not_older_than_twice (old_date : Z) (m : gmap Z RoomActivityLog) :
  filter (fun entry => ~ Admin.older_than old_date entry)
    (filter (fun entry => ~ Admin.older_than old_date entry) m)
  = filter (fun entry => ~ Admin.older_than old_date entry) m.
Proof.
  apply map_filter_id. intros k e He.
  apply map_lookup_filter_Some in He. tauto.
Qed.

(** C7.  [delete_old_logs] removes the entries whose timestamp is before
    the current time minus 30 days, all of them and no others, and
    reports how many it removed; run again at once, it removes nothing
    and reports 0. *)
Theorem delete_old_logs_purges (queryset : gset Z) (w : World db) :
  exists removed w',
    Admin.delete_old_logs queryset w = (Ok tt, w') /\
    (forall k e,
       activity w' !! k = Some e <->
       activity w !! k = Some e /\
       ~ timestamp e < clock w - Admin.thirty_days) /\
    flashes w' = (flashes w ++ [OldLogsDeleted removed])%list /\
    (removed + size (activity w') = size (activity w))%nat /\
    exists w'',
      Admin.delete_old_logs queryset w' = (Ok tt, w'') /\
      activity w'' = activity w' /\
      flashes w'' = (flashes w' ++ [OldLogsDeleted 0])%list.
Proof.
  unfold Admin.delete_old_logs, Admin.delete_older_than, bind, now,
    message_user.
  eexists _, _. split; [reflexivity |]. cbn -[filter].
  split; [| split; [reflexivity | split]].
  - intros k e. rewrite map_lookup_filter_Some. reflexivity.
  - rewrite <- map_size_disj_union
      by apply (map_disjoint_filter_complement _ _).
    rewrite map_filter_union_complement. reflexivity.
  - eexists. split; [reflexivity |]. cbn -[filter]. split.
    + apply not_older_than_twice.
    + rewrite not_older_than_older. reflexivity.
Qed.

(** C10.  [delete_old_logs] does not look at the entries the
    administrator selected: it does the same for every selection, an
    entry older than 30 days is removed whether selected or not, and a
    newer entry is kept whether selected or not. *)
Theorem delete_old_logs_ignores_queryset (queryset other : gset Z)
    (w : World db) :
  Admin.delete_old_logs queryset w = Admin.delete_old_logs other w /\
  (forall k e,
     activity w !! k = Some e ->
     timestamp e < clock w - Admin.thirty_days ->
     activity (Admin.delete_old_logs queryset w).2 !! k = None) /\
  (forall k e,
     activity w !! k = Some e ->
     ~ timestamp e < clock w - Admin.thirty_days ->
     activity (Admin.delete_old_logs queryset w).2 !! k = Some e).
Proof.
  split; [reflexivity |].
  unfold Admin.delete_old_logs, Admin.delete_older_than, bind, now,
    message_user.
  cbn -[filter]. split.
  - intros k e He Hold. apply map_lookup_filter_None. right.
    intros e' He' Hnew. apply Hnew. unfold Admin.older_than. cbn.
    congruence.
  - intros k e He Hnew. apply map_lookup_filter_Some. split; assumption.
Qed.

(** ** What the administrator is told *)

(** Splits on what the backend answers to the statements of the goal. *)
Ltac case_sql :=
  repeat (cbn;
    match goal with
    | |- context [sql_select ?k ?s] =>
        destruct (sql_select k s) as [[[? |] | []] ?]
    | |- context [sql_exists ?k ?s] =>
        destruct (sql_exists k s) as [[[|] | []] ?]
    | |- context [sql_update ?k ?h ?a ?s] =>
        destruct (sql_update k h a s) as [[? | []] ?]
    | |- context [sql_insert ?k ?r ?s] =>
        destruct (sql_insert k r s) as [[? | []] ?]
    end).

Lemma get_flashes (k : Z) (w : World db) :
  flashes (Orm.get k w).2 = flashes w.
Proof.
  unfold Orm.get, bind, query, ret, raise. case_sql; reflexivity.
Qed.

Lemma save_flashes (self : SystemSettings) (w : World db) :
  flashes (Models.save self w).2 = flashes w.
Proof.
  unfold Models.save, Orm.exists_, Orm.update, Orm.get, Orm.Model_save,
    try_except, except_DoesNotExist, bind, query, now, ret, raise.
  case_sql; reflexivity.
Qed.

Lemma set_password_flashes (self : SystemSettings) (p : string)
    (w : World db) :
  flashes (Models.set_password self p w).2 = flashes w.
Proof. reflexivity. Qed.

Lemma copy_existing_flashes (form : Admin.Form) (obj : SystemSettings)
    (w : World db) :
  flashes (Admin.copy_existing form obj w).2 = flashes w.
Proof.
  unfold Admin.copy_existing, Orm.get, try_except, except_DoesNotExist,
    bind, query, ret, raise.
  case_sql; reflexivity.
Qed.

Lemma keep_existing_flashes (form : Admin.Form) (obj : SystemSettings)
    (w : World db) :
  flashes (Admin.keep_existing form obj w).2 = flashes w.
Proof.
  unfold Admin.keep_existing, Orm.get, try_except, except_DoesNotExist,
    bind, query, ret, raise.
  case_sql; try reflexivity;
    destruct (negb (truthy (Admin.new_password form))); reflexivity.
Qed.

Lemma verify_saved_flashes (form : Admin.Form) (w : World db) :
  flashes (Admin.verify_saved form w).2 = flashes w.
Proof.
  unfold Admin.verify_saved, Orm.get, try_except, except_Exception, bind,
    query, ret, raise, log, Models.set_password, Hashers.make_password.
  destruct (sql_select 1 (store w)) as [[[r |] | e] s1]; cbn;
    try reflexivity.
  destruct (truthy (Admin.new_password form)
            && Models.check_password (Orm.from_db 1 r)
                 (Admin.new_password form)); cbn; [reflexivity |].
  destruct (truthy (Admin.new_password form)); cbn; [| reflexivity].
  match goal with
  | |- context [Models.save ?o ?v] =>
      pose proof (save_flashes o v) as Hsave;
      destruct (Models.save o v) as [[? | ?] ?]
  end; cbn in *; exact Hsave.
Qed.

(** Whenever [save_model] returns, it has told the administrator that
    the password was changed if a new password was given, and nothing
    otherwise, whatever the database did with the write. *)
Theorem save_model_flashes (obj : SystemSettings) (form : Admin.Form)
    (w : World db) (obj' : SystemSettings) (w' : World db) :
  Admin.save_model obj form w = (Ok obj', w') ->
  flashes w' =
    (flashes w ++
     if truthy (Admin.new_password form) then [PasswordChanged] else [])%list.
Proof.
  unfold Admin.save_model, Admin.prepare_and_save.
  unfold bind at 1 2 3.
  pose proof (copy_existing_flashes form (Models.set_pk 1 obj) w) as H1.
  destruct (Admin.copy_existing form (Models.set_pk 1 obj) w)
    as [[o1 | e1] w1]; [| discriminate].
  unfold bind at 1.
  pose proof (keep_existing_flashes form o1 w1) as H2.
  destruct (Admin.keep_existing form o1 w1) as [[o2 | e2] w2];
    [| discriminate].
  cbn in H1, H2.
  unfold bind, log, ret, message_user, Models.set_password,
    Hashers.make_password.
  destruct (truthy (Admin.new_password form)) eqn:Hp;
    cbn -[Admin.verify_saved];
    match goal with
    | |- context [if negb ?b then _ else _] => destruct b
    end;
    cbn -[Admin.verify_saved];
    match goal with
    | |- context [Models.save ?o ?v] =>
        pose proof (save_flashes o v) as Hsave;
        destruct (Models.save o v) as [[o4 | ?] w4]
    end;
    try discriminate;
    pose proof (verify_saved_flashes form w4) as Hverify;
    destruct (Admin.verify_saved form w4) as [[[] | ?] w5];
    try discriminate;
    intros [= _ <-]; cbn in *; rewrite ?app_nil_r; congruence.
Qed.

Lemma purge_count (old_date : Z) (m : gmap Z RoomActivityLog) :
  (size (filter (Admin.older_than old_date) m)
   + size (filter (fun entry => ~ Admin.older_than old_date entry) m)
   = size m)%nat.
Proof.
  rewrite <- map_size_disj_union
    by apply (map_disjoint_filter_complement _ _).
  rewrite map_filter_union_complement. reflexivity.
Qed.

(** Purging, and purging again later, leaves the log that one purge at
    the later time leaves, and the two reported numbers add up to the
    number that one purge reports. *)
Theorem delete_old_logs_twice (queryset : gset Z) (w : World db)
    (later : Z) :
  clock w <= later ->
  exists n1 w1 n2 w2 n w',
    Admin.delete_old_logs queryset w = (Ok tt, w1) /\
    flashes w1 = (flashes w ++ [OldLogsDeleted n1])%list /\
    Admin.delete_old_logs queryset (with_clock later w1) = (Ok tt, w2) /\
    flashes w2 = (flashes w1 ++ [OldLogsDeleted n2])%list /\
    Admin.delete_old_logs queryset (with_clock later w) = (Ok tt, w') /\
    flashes w' = (flashes w ++ [OldLogsDeleted n])%list /\
    activity w2 = activity w' /\
    n = (n1 + n2)%nat.
Proof.
  intros Hlater.
  unfold Admin.delete_old_logs, Admin.delete_older_than, bind, now,
    message_user.
  eexists _, _, _, _, _, _.
  split; [reflexivity |]. split; [reflexivity |].
  split; [reflexivity |]. split; [reflexivity |].
  split; [reflexivity |]. split; [reflexivity |].
  cbn -[filter].
  assert (Hsame :
    filter (fun entry => ~ Admin.older_than (later - Admin.thirty_days) entry)
      (filter
         (fun entry => ~ Admin.older_than (clock w - Admin.thirty_days) entry)
         (activity w))
    = filter
        (fun entry => ~ Admin.older_than (later - Admin.thirty_days) entry)
        (activity w)).
  { apply map_filter_filter_l. intros k e _ Hnew Hold. apply Hnew.
    unfold Admin.older_than in *. cbn in *. lia. }
  split; [exact Hsame |].
  pose proof (purge_count (clock w - Admin.thirty_days) (activity w)) as H1.
  pose proof (purge_count (later - Admin.thirty_days)
                (filter (fun entry =>
                           ~ Admin.older_than (clock w - Admin.thirty_days)
                               entry) (activity w))) as H2.
  pose proof (purge_count (later - Admin.thirty_days) (activity w)) as H3.
  rewrite Hsame in H2. lia.
Qed.
End AnyBackend.

(** ** The admin form and the admin columns *)

(** [clean] accepts a form, and then returns it as it is, exactly when
    both password fields are empty or the two are equal and hold at least
    6 characters. *)
Theorem clean_accepts_iff (form cleaned : Admin.Form) :
  Admin.clean form = Ok cleaned <->
  cleaned = form /\
  (Admin.new_password form = EmptyString /\
   Admin.confirm_password form = EmptyString \/
   Admin.confirm_password form = Admin.new_password form /\
   (6 <= py_len (Admin.new_password form))%nat).
Proof.
  unfold Admin.clean.
  destruct (Admin.new_password form) as [| c p] eqn:Hnew;
    destruct (Admin.confirm_password form) as [| c' p'] eqn:Hconfirm;
    cbn [truthy orb negb].
  - split.
    + intros [= <-]. split; [reflexivity | left; split; reflexivity].
    + intros [-> _]. reflexivity.
  - split; [discriminate |].
    intros [_ [[_ Hc] | [_ Hlen]]]; [discriminate | cbn in Hlen; lia].
  - split; [discriminate |]. intros [_ [[Hn _] | [Hc _]]]; discriminate.
  - destruct (String.eqb_spec (String c p) (String c' p')) as [Heq | Hne];
      cbn [negb].
    + destruct (Nat.ltb_spec (py_len (String c p)) 6) as [Hlt | Hge].
      * split; [discriminate |].
        intros [_ [[Hn _] | [_ Hlen]]]; [discriminate | lia].
      * split.
        -- intros [= <-]. split; [reflexivity |]. right.
           split; [symmetry; exact Heq | exact Hge].
        -- intros [-> _]. reflexivity.
    + split; [discriminate |].
      intros [_ [[Hn _] | [Hc _]]]; [discriminate | congruence].
Qed.

Lemma length_append (s t : string) :
  String.length (s ++ t) = (String.length s + String.length t)%nat.
Proof.
  induction s as [| c s IH]; simpl; [reflexivity | f_equal; exact IH].
Qed.

Lemma length_substring_0 (n : nat) (s : string) :
  String.length (substring 0 n s) = Nat.min n (String.length s).
Proof.
  revert s. induction n as [| n IH]; intros [| c s]; simpl;
    try reflexivity.
  f_equal. apply IH.
Qed.

Lemma substring_0_append (n : nat) (s t : string) :
  (n <= String.length s)%nat ->
  substring 0 n (s ++ t) = substring 0 n s.
Proof.
  revert s. induction n as [| n IH]; intros [| c s] Hn; simpl in *;
    try reflexivity; try lia.
  - destruct t; reflexivity.
  - f_equal. apply IH. lia.
Qed.

Lemma substring_0_twice (n : nat) (s : string) :
  substring 0 n (substring 0 n s) = substring 0 n s.
Proof.
  revert s. induction n as [| n IH]; intros [| c s]; simpl;
    try reflexivity.
  f_equal. apply IH.
Qed.

Lemma escape_no_markup (s : string) (c : ascii) :
  In c (list_ascii_of_string (Display.escape s)) ->
  c <> "<"%char /\ c <> ">"%char /\ c <> "'"%char
  /\ c <> Ascii.ascii_of_nat 34.
Proof.
  induction s as [| d s IH]; cbn [Display.escape].
  - intros [].
  - assert (Happ : forall a b, list_ascii_of_string (a ++ b)
                     = (list_ascii_of_string a ++ list_ascii_of_string b)%list).
    { intros a b. induction a as [| x a IHa]; simpl;
        [reflexivity | f_equal; exact IHa]. }
    rewrite Happ. intros Hin. apply in_app_or in Hin as [Hin | Hin];
      [| exact (IH Hin)].
    clear IH Happ.
    destruct (Ascii.eqb_spec d "&"%char);
      [| destruct (Ascii.eqb_spec d "<"%char);
         [| destruct (Ascii.eqb_spec d ">"%char);
            [| destruct (Ascii.eqb_spec d (Ascii.ascii_of_nat 34));
               [| destruct (Ascii.eqb_spec d "'"%char)]]]];
      cbn in Hin;
      repeat (destruct Hin as [<- | Hin];
              [repeat split; first [discriminate | congruence] |]);
      destruct Hin.
Qed.

(** [password_hash_preview] names no hash when the hash is empty;
    otherwise it shows, between its two tags and escaped so that no
    character of it closes a tag or an attribute, at most 23 characters
    that start like the hash: the whole hash when that has at most 20
    characters, and its first 20 followed by three dots when it has
    more. *)
Theorem password_hash_preview_shows (obj : SystemSettings) :
  (access_password_hash obj = EmptyString ->
   Display.password_hash_preview obj = Display.msg_no_password) /\
  (access_password_hash obj <> EmptyString ->
   exists shown,
     Display.password_hash_preview obj
       = Display.code_open ++ Display.escape shown ++ Display.code_close /\
     (String.length shown <= 23)%nat /\
     substring 0 20 shown = substring 0 20 (access_password_hash obj) /\
     ((String.length (access_password_hash obj) <= 20)%nat ->
      shown = access_password_hash obj) /\
     ((20 < String.length (access_password_hash obj))%nat ->
      shown = substring 0 20 (access_password_hash obj) ++ "...") /\
     (forall c, In c (list_ascii_of_string (Display.escape shown)) ->
        c <> "<"%char /\ c <> ">"%char /\ c <> "'"%char
        /\ c <> Ascii.ascii_of_nat 34)).
Proof.
  unfold Display.password_hash_preview. split.
  - intros ->. reflexivity.
  - intros Hne. exists (Display.shown_hash (access_password_hash obj)).
    rewrite (truthy_nonempty _ Hne). split; [reflexivity |].
    unfold Display.shown_hash.
    destruct (Nat.ltb_spec 20 (String.length (access_password_hash obj)))
      as [Hlong | Hshort].
    + split; [| split; [| split; [| split]]].
      * rewrite length_append, length_substring_0. simpl String.length. lia.
      * rewrite substring_0_append by (rewrite length_substring_0; lia).
        apply substring_0_twice.
      * intros Hle. lia.
      * intros _. reflexivity.
      * apply escape_no_markup.
    + split; [| split; [| split; [| split]]].
      * lia.
      * reflexivity.
      * intros _. reflexivity.
      * intros Hlt. lia.
      * apply escape_no_markup.
Qed.

(** [room_id_short] never shows an empty column: it says N/A for an
    empty room id, and otherwise shows the first 8 characters of the id
    followed by three dots, 4 to 11 characters in all. *)
Theorem room_id_short_shows (obj : RoomActivityLog) :
  (room_id obj = EmptyString -> Display.room_id_short obj = "N/A") /\
  (room_id obj <> EmptyString ->
   Display.room_id_short obj = substring 0 8 (room_id obj) ++ "..." /\
   (4 <= String.length (Display.room_id_short obj) <= 11)%nat /\
   ((8 <= String.length (room_id obj))%nat ->
    String.length (Display.room_id_short obj) = 11%nat)).
Proof.
  unfold Display.room_id_short. split.
  - intros ->. reflexivity.
  - intros Hne. rewrite (truthy_nonempty _ Hne). split; [reflexivity |].
    rewrite length_append, length_substring_0. simpl String.length.
    assert (1 <= String.length (room_id obj))%nat
      by (destruct (room_id obj); [congruence | simpl; lia]).
    split; [lia |]. intros Hlen. lia.
Qed.

(** ** The hasher of Django's shape *)

Lemma append_assoc (s t u : string) : (s ++ t) ++ u = s ++ (t ++ u).
Proof.
  induction s as [| c s IH]; [reflexivity |].
  exact (f_equal (String c) IH).
Qed.

(** HMAC does not tell a key shorter than its block from the same key
    followed by a zero byte. *)
Lemma hmac_key_ignores_nul (digest : string -> string) (p : string) :
  (String.length p < 64)%nat ->
  hmac_key digest (p ++ nul) = hmac_key digest p.
Proof.
  intros Hshort. unfold hmac_key.
  rewrite length_append. simpl (String.length nul).
  destruct (Nat.ltb_spec 64 (String.length p + 1)) as [Hlong | _]; [lia |].
  destruct (Nat.ltb_spec 64 (String.length p)) as [Hlong | _]; [lia |].
  rewrite append_assoc. f_equal.
  rewrite ?length_append. simpl (String.length nul).
  replace (64 - String.length p)%nat
    with (S (64 - (String.length p + 1))) by lia.
  reflexivity.
Qed.

(** So a hasher of the shape of Django's default one verifies a password
    shorter than 64 bytes and the same password followed by a zero byte
    alike, whatever its digest and its pseudo-random function are. *)
Lemma pbkdf2_verify_ignores_nul (digest : string -> string)
    (prf : string -> string -> string) (raw encoded : string) :
  (String.length raw < 64)%nat ->
  pbkdf2_verify digest prf (raw ++ nul) encoded
  = pbkdf2_verify digest prf raw encoded.
Proof.
  intros Hshort. unfold pbkdf2_verify, pbkdf2_encode.
  rewrite (hmac_key_ignores_nul digest raw Hshort). reflexivity.
Qed.

(** ** [get_settings] next to another writer *)

Section OtherWriter.
Context `{Hasher}.
#[local] Existing Instance shared.

#[local] Arguments other_writer : simpl never.

Lemma other_writer_inserts (m : Table) (r : SettingsRow)
    (rest : list (option SettingsRow)) :
  m !! 1 = None ->
  other_writer (m, Some r :: rest) = (<[1 := r]> m, rest).
Proof. intros Hm. unfold other_writer. cbn. rewrite Hm. reflexivity. Qed.

Lemma other_writer_idles (m : Table) (rest : list (option SettingsRow)) :
  other_writer (m, None :: rest) = (m, rest).
Proof. reflexivity. Qed.

Lemma other_writer_taken (s : Shared) (x : SettingsRow) :
  s.1 !! 1 = Some x -> (other_writer s).1 = s.1.
Proof.
  intros Hx. unfold other_writer.
  destruct s as [m [| [r |] rest]]; cbn in *; [reflexivity | | reflexivity].
  rewrite Hx. reflexivity.
Qed.

(** Proves that key 1 is taken in a table the other writer has gone
    over. *)
Ltac taken :=
  cbn -[insert lookup];
  first [ apply lookup_insert_eq
        | erewrite other_writer_taken; [taken | taken] ].

(** Runs the statements of the goal on the shared database. *)
Ltac exec_shared Hm :=
  repeat (cbn -[insert lookup];
    first [ rewrite Hm
          | rewrite lookup_insert_eq
          | rewrite other_writer_idles
          | rewrite (other_writer_inserts _ _ _ Hm)
          | erewrite other_writer_taken by taken ]).

(** When another process creates the record between the SELECT and the
    EXISTS of [get_settings], [get_settings] takes the update path of
    [save]: it returns normally, and the record of the other process
    keeps its timestamps but loses its password hash to the default
    credential's and its flag to [True]. *)
Theorem get_settings_overwrites_other_writer (w : World Shared) (m : Table)
    (r : SettingsRow) (rest : list (option SettingsRow)) :
  store w = (m, Some r :: rest) ->
  m !! 1 = None ->
  exists settings w',
    Models.get_settings w = (Ok settings, w') /\
    (store w').1 !! 1
      = Some (mkSettingsRow
                (hasher_encode (entropy w) Models.default_password)
                (row_created_at r) (row_updated_at r) true) /\
    access_password_hash settings
      = hasher_encode (entropy w) Models.default_password /\
    trace w' = (trace w ++ [QSelect 1; QExists 1; QUpdate 1; QSelect 1])%list.
Proof.
  intros Hstore Hm. destruct w as [s a t n q j f]. cbn in Hstore. subst s.
  unfold_m. exec_shared Hm.
  eexists _, _. split; [reflexivity |]. exec_shared Hm.
  rewrite <- !app_assoc. repeat split.
Qed.

(** When another process creates the record between the EXISTS and the
    INSERT of [get_settings], [get_settings] raises [IntegrityError] to
    its caller, with the record of the other process in the table. *)
Theorem get_settings_raises_beside_other_writer (w : World Shared)
    (m : Table) (r : SettingsRow) (rest : list (option SettingsRow)) :
  store w = (m, None :: Some r :: rest) ->
  m !! 1 = None ->
  exists w',
    Models.get_settings w = (Raise IntegrityError, w') /\
    (store w').1 !! 1 = Some r /\
    trace w' = (trace w ++ [QSelect 1; QExists 1; QInsert 1])%list.
Proof.
  intros Hstore Hm. destruct w as [s a t n q j f]. cbn in Hstore. subst s.
  unfold_m. exec_shared Hm.
  eexists. split; [reflexivity |]. exec_shared Hm.
  rewrite <- !app_assoc. repeat split.
Qed.
End OtherWriter.

(** ** The theorems at concrete inputs *)

(** Proves a conjunction of closed equations one after the other, each
    by evaluation, so that what an earlier one computes is there for the
    later ones. *)
Ltac by_evaluation :=
  repeat (lazymatch goal with |- _ /\ _ => split end;
          [vm_compute; reflexivity |]);
  vm_compute; reflexivity.

Lemma cleartext_hasher_laws : @HasherLaws cleartext_hasher.
Proof.
  split; cbn.
  - discriminate.
  - intros _ raw. apply String.eqb_refl.
Qed.

Section OnReliable.
#[local] Existing Instance reliable.
#[local] Existing Instance cleartext_hasher.

(** [settings_singleton] on an empty table and one [get_settings]. *)
Lemma settings_singleton_witness :
  existsb writes [GetSettings] = true /\
  exists w',
    perform_all [GetSettings] fresh_world = Some w' /\
    dom (store w') = dom (store fresh_world) ∪ {[1]} /\
    (forall k, k <> 1 -> store w' !! k = store fresh_world !! k) /\
    (dom (store fresh_world) ⊆ {[1]} -> size (store w') = 1%nat).
Proof.
  split; [reflexivity |].
  apply (settings_singleton [GetSettings] fresh_world). reflexivity.
Defined.

(** C1, as stated, fails: from a table that holds a record under key 2,
    one [get_settings] leaves two records. *)
Lemma settings_singleton_counterexample :
  exists w',
    perform_all [GetSettings] stray_world = Some w' /\
    size (store w') = 2%nat.
Proof. eexists. by_evaluation. Qed.

(** [set_password_then_check] for the password [secret1] on the record
    written at time 100. *)
Lemma set_password_then_check_witness :
  exists self1 w1 self2 w2 settings w3,
    Models.set_password (Orm.from_db 1 old_row) "secret1" old_world
      = (Ok self1, w1) /\
    Models.check_password self1 "secret1" = true /\
    Models.save self1 w1 = (Ok self2, w2) /\
    Models.get_settings w2 = (Ok settings, w3) /\
    access_password_hash settings = access_password_hash self1 /\
    Models.check_password settings "secret1" = true.
Proof.
  apply (@set_password_then_check cleartext_hasher cleartext_hasher_laws
           (Orm.from_db 1 old_row) "secret1" old_world).
Defined.

(** C2, as stated, fails: over a hasher of the shape of Django's default
    one, after [set_password] with [secret1], a password of 7
    characters, [check_password] is true for [secret1] followed by a zero
    byte, which is another password. *)
Lemma set_password_then_check_counterexample :
  (6 <= py_len "secret1")%nat /\
  String.eqb ("secret1" ++ nul) "secret1" = false /\
  exists self' w',
    @Models.set_password Table pbkdf2_toy (Orm.from_db 1 old_row) "secret1"
      old_world = (Ok self', w') /\
    @Models.check_password pbkdf2_toy self' "secret1" = true /\
    @Models.check_password pbkdf2_toy self' ("secret1" ++ nul) = true.
Proof.
  split; [vm_compute; lia |]. split; [reflexivity |].
  eexists _, _. by_evaluation.
Qed.

(** [short_password_rejected] for a password of 3 Cyrillic characters,
    which are 6 bytes. *)
Lemma short_password_rejected_witness :
  (0 < py_len "пар" < 6)%nat /\
  Admin.clean (Admin.mkForm "пар" "пар" [])
    = Raise (ValidationError Admin.msg_too_short) /\
  Admin.changeform_view (Orm.from_db 1 old_row) (Admin.mkForm "пар" "пар" [])
      old_world
    = (Raise (ValidationError Admin.msg_too_short), old_world).
Proof.
  split; [vm_compute; lia |].
  apply (short_password_rejected (Orm.from_db 1 old_row) "пар" [] old_world).
  vm_compute; lia.
Defined.

(** C3, as stated, fails at the empty password: it is shorter than 6
    characters, and [clean] accepts it. *)
Lemma short_password_counterexample :
  (py_len "" < 6)%nat /\
  Admin.clean (Admin.mkForm "" "" []) = Ok (Admin.mkForm "" "" []).
Proof. split; [cbn; lia | reflexivity]. Qed.

(** [save_model_keeps_updated_at] for a password change at time 500 on
    the record written at time 100. *)
Lemma save_model_keeps_updated_at_witness :
  store old_world !! 1 = Some old_row /\
  exists obj' w' r',
    Admin.save_model (Orm.from_db 1 old_row) secret_form old_world
      = (Ok obj', w') /\
    store w' !! 1 = Some r' /\
    row_created_at r' = row_created_at old_row /\
    row_updated_at r' = row_updated_at old_row /\
    (Admin.is_active_changed secret_form = false ->
     row_is_active r' = row_is_active old_row).
Proof.
  split; [reflexivity |].
  apply (save_model_keeps_updated_at (Orm.from_db 1 old_row) secret_form
           old_world old_row).
  reflexivity.
Defined.

(** The same run, with the row it leaves: the stored [updated_at] is
    still 100 at time 500. *)
Example updated_at_not_refreshed :
  clock old_world = 500 /\
  exists obj' w',
    Admin.save_model (Orm.from_db 1 old_row) secret_form old_world
      = (Ok obj', w') /\
    store w' !! 1 = Some (mkSettingsRow "asecret1" 100 100 true).
Proof.
  split; [reflexivity |]. eexists _, _. by_evaluation.
Qed.

(** [get_settings_creates] on an empty table. *)
Lemma get_settings_creates_witness :
  store fresh_world !! 1 = None /\
  exists settings w',
    Models.get_settings fresh_world = (Ok settings, w') /\
    access_password_hash settings =
      hasher_encode (entropy fresh_world) Models.default_password /\
    is_active settings = true /\
    created_at settings = Some (clock fresh_world) /\
    updated_at settings = Some (clock fresh_world) /\
    Orm.from_db 1 <$> store w' !! 1 = Some settings /\
    (forall k, k <> 1 -> store w' !! k = store fresh_world !! k) /\
    trace w' = (trace fresh_world ++ [QSelect 1; QExists 1; QInsert 1])%list.
Proof.
  split; [reflexivity |].
  apply (get_settings_creates fresh_world). reflexivity.
Defined.

(** C5, as stated, fails: on an empty table, [get_settings] sends no
    SELECT after its INSERT, so what it returns was not read back. *)
Lemma get_settings_counterexample :
  exists settings w',
    Models.get_settings fresh_world = (Ok settings, w') /\
    trace w' = [QSelect 1; QExists 1; QInsert 1] /\
    reads_after_insert (trace w') = false.
Proof. eexists _, _. by_evaluation. Qed.

(** [password_change_round_trip] for a change to [secret1]. *)
Lemma password_change_round_trip_witness :
  "secret1" <> EmptyString /\
  exists obj' w1 r1 settings w2,
    Admin.save_model (Orm.from_db 1 old_row)
        (Admin.mkForm "secret1" "secret1" ["new_password"]) old_world
      = (Ok obj', w1) /\
    store w1 !! 1 = Some r1 /\
    row_access_password_hash r1 = hasher_encode (entropy old_world) "secret1" /\
    Models.get_settings w1 = (Ok settings, w2) /\
    access_password_hash settings
      = hasher_encode (entropy old_world) "secret1" /\
    Models.check_password settings "secret1" = true.
Proof.
  split; [discriminate |].
  apply (@password_change_round_trip cleartext_hasher cleartext_hasher_laws
           (Orm.from_db 1 old_row) "secret1" ["new_password"] old_world).
  discriminate.
Defined.

(** [set_active_keeps_password] for switching the settings off. *)
Lemma set_active_keeps_password_witness :
  store old_world !! 1 = Some old_row /\
  row_access_password_hash old_row <> EmptyString /\
  Admin.new_password off_form = EmptyString /\
  Admin.is_active_changed off_form = true /\
  exists obj' w1 settings w2,
    Admin.save_model (Models.set_is_active false (Orm.from_db 1 old_row))
        off_form old_world
      = (Ok obj', w1) /\
    Models.get_settings w1 = (Ok settings, w2) /\
    is_active settings = false /\
    access_password_hash settings = row_access_password_hash old_row /\
    created_at settings = Some (row_created_at old_row).
Proof.
  split; [reflexivity |]. split; [discriminate |].
  split; [reflexivity |]. split; [reflexivity |].
  apply (set_active_keeps_password
           (Models.set_is_active false (Orm.from_db 1 old_row)) off_form
           old_world old_row);
    [reflexivity | discriminate | reflexivity | reflexivity].
Defined.

(** [delete_old_logs] with the two newest entries selected: the two
    entries before the cutoff go although they were not selected, the
    entry at the cutoff and the newest stay, and 2 is reported; a second
    run reports 0. *)
Example delete_old_logs_example :
  exists w' w'',
    Admin.delete_old_logs {[3; 4]} log_world = (Ok tt, w') /\
    (map_to_list (activity w')).*1 = [3; 4] /\
    flashes w' = [OldLogsDeleted 2] /\
    Admin.delete_old_logs {[3; 4]} w' = (Ok tt, w'') /\
    (map_to_list (activity w'')).*1 = [3; 4] /\
    flashes w'' = [OldLogsDeleted 2; OldLogsDeleted 0].
Proof.
  eexists _, _. by_evaluation.
Qed.

(** [delete_old_logs_twice] on the example log, the second purge one
    microsecond later. *)
Lemma delete_old_logs_twice_witness :
  clock log_world <= 3000000000001 /\
  exists n1 w1 n2 w2 n w',
    Admin.delete_old_logs {[3; 4]} log_world = (Ok tt, w1) /\
    flashes w1 = (flashes log_world ++ [OldLogsDeleted n1])%list /\
    Admin.delete_old_logs {[3; 4]} (with_clock 3000000000001 w1)
      = (Ok tt, w2) /\
    flashes w2 = (flashes w1 ++ [OldLogsDeleted n2])%list /\
    Admin.delete_old_logs {[3; 4]} (with_clock 3000000000001 log_world)
      = (Ok tt, w') /\
    flashes w' = (flashes log_world ++ [OldLogsDeleted n])%list /\
    activity w2 = activity w' /\
    n = (n1 + n2)%nat.
Proof.
  split; [cbn; lia |].
  apply (delete_old_logs_twice {[3; 4]} log_world 3000000000001).
  cbn; lia.
Defined.

(** [has_add_permission_after_write] on an empty table and one
    [get_settings]. *)
Lemma has_add_permission_after_write_witness :
  existsb writes [GetSettings] = true /\
  (Display.has_add_permission fresh_world = true <-> store fresh_world = ∅) /\
  exists w',
    perform_all [GetSettings] fresh_world = Some w' /\
    Display.has_add_permission w' = false.
Proof.
  split; [reflexivity |].
  apply (has_add_permission_after_write [GetSettings] fresh_world).
  reflexivity.
Defined.

(** [default_credential] on an empty table. *)
Lemma default_credential_witness :
  store fresh_world !! 1 = None /\
  Admin.new_password off_form = EmptyString /\
  (exists settings w1 r,
     Models.get_settings fresh_world = (Ok settings, w1) /\
     store w1 !! 1 = Some r /\
     hasher_verify Models.default_password (row_access_password_hash r)
       = true /\
     row_is_active r = true /\
     settings = Orm.from_db 1 r) /\
  (exists obj' w1 r,
     Admin.save_model (Models.new_instance None "" true) off_form fresh_world
       = (Ok obj', w1) /\
     store w1 !! 1 = Some r /\
     hasher_verify Models.default_password (row_access_password_hash r)
       = true /\
     row_is_active r = is_active (Models.new_instance None "" true)).
Proof.
  split; [reflexivity |]. split; [reflexivity |].
  apply (@default_credential cleartext_hasher cleartext_hasher_laws
           (Models.new_instance None "" true) off_form fresh_world);
    reflexivity.
Defined.

(** [save_model_sets_a_password] on a record whose hash is empty. *)
Lemma save_model_sets_a_password_witness :
  exists obj' w' r',
    Admin.save_model (Orm.from_db 1 blank_row) off_form blank_world
      = (Ok obj', w') /\
    store w' !! 1 = Some r' /\
    row_access_password_hash r' <> EmptyString /\
    Display.password_status (Orm.from_db 1 r') = Display.status_set /\
    (forall r,
       store blank_world !! 1 = Some r ->
       row_access_password_hash r = EmptyString ->
       Admin.new_password off_form = EmptyString ->
       hasher_verify Models.default_password (row_access_password_hash r')
         = true).
Proof.
  apply (@save_model_sets_a_password cleartext_hasher cleartext_hasher_laws
           (Orm.from_db 1 blank_row) off_form blank_world).
Defined.

(** [save_model_statements] for a password change on an existing
    record. *)
Lemma save_model_statements_witness :
  exists obj' w' news,
    Admin.save_model (Orm.from_db 1 old_row) secret_form old_world
      = (Ok obj', w') /\
    trace w' =
      (trace old_world ++
       match store old_world !! 1 with
       | Some _ =>
           [QSelect 1; QSelect 1; QExists 1; QUpdate 1; QSelect 1; QSelect 1]
       | None => [QSelect 1; QSelect 1; QExists 1; QInsert 1; QSelect 1]
       end)%list /\
    journal w' = (journal old_world ++ news)%list /\
    ~ In ErrorNotSaved news /\
    ~ In InfoRetried news /\
    flashes w' =
      (flashes old_world ++
       if truthy (Admin.new_password secret_form)
       then [PasswordChanged] else [])%list.
Proof.
  apply (@save_model_statements cleartext_hasher cleartext_hasher_laws
           (Orm.from_db 1 old_row) secret_form old_world).
Defined.

(** [save_model_logs_hash_prefix] for a password change on an existing
    record. *)
Lemma save_model_logs_hash_prefix_witness :
  exists obj' w' r' news,
    Admin.save_model (Orm.from_db 1 old_row) secret_form old_world
      = (Ok obj', w') /\
    store w' !! 1 = Some r' /\
    journal w' = (journal old_world ++ news)%list /\
    In (InfoSaving (Some 1) true
          (substring 0 30 (row_access_password_hash r'))) news.
Proof.
  apply (@save_model_logs_hash_prefix cleartext_hasher cleartext_hasher_laws
           (Orm.from_db 1 old_row) secret_form old_world).
Defined.
End OnReliable.

Section OnLossy.
#[local] Existing Instance lossy.
#[local] Existing Instance cleartext_hasher.

(** [save_model_retries_once] over the database that keeps no UPDATE. *)
Lemma save_model_retries_once_witness :
  Admin.prepare_and_save (Orm.from_db 1 old_row) secret_form old_world
    = (Ok changed_settings, unsaved_world) /\
  sql_select 1 (store unsaved_world)
    = (Ok (Some old_row), store unsaved_world) /\
  truthy (Admin.new_password secret_form) = true /\
  hasher_verify (Admin.new_password secret_form)
    (row_access_password_hash old_row) = false /\
  exists w2,
    Admin.save_model (Orm.from_db 1 old_row) secret_form old_world
      = (Ok changed_settings, w2) /\
    store w2 = store old_world /\
    journal w2 =
      [InfoSettingPassword; InfoSaving (Some 1) true "asecret1";
       InfoSaved (Some 1) 9; ErrorNotSaved; InfoRetried].
Proof.
  assert (Hrun : Admin.prepare_and_save (Orm.from_db 1 old_row) secret_form
                   old_world = (Ok changed_settings, unsaved_world))
    by (vm_compute; reflexivity).
  assert (Hselect : sql_select 1 (store unsaved_world)
                    = (Ok (Some old_row), store unsaved_world))
    by (vm_compute; reflexivity).
  assert (Hp : truthy (Admin.new_password secret_form) = true)
    by reflexivity.
  assert (Hverify : hasher_verify (Admin.new_password secret_form)
                      (row_access_password_hash old_row) = false)
    by reflexivity.
  repeat (split; [assumption |]).
  rewrite (save_model_retries_once _ _ _ _ _ _ _ Hrun Hselect Hp Hverify).
  eexists. by_evaluation.
Defined.

(** C6, as stated, fails: over a database that keeps no UPDATE, the
    password change and its one retry leave the old hash in the table,
    the new password does not verify against it, and [save_model]
    returns normally; the failure is in the log only. *)
Lemma save_model_retries_once_counterexample :
  exists obj' w',
    Admin.save_model (Orm.from_db 1 old_row) secret_form old_world
      = (Ok obj', w') /\
    store w' !! 1 = Some old_row /\
    Models.check_password (Orm.from_db 1 old_row) "secret1" = false /\
    trace w' =
      [QSelect 1; QSelect 1; QExists 1; QUpdate 1; QSelect 1;
       QSelect 1; QExists 1; QUpdate 1; QSelect 1] /\
    journal w' =
      [InfoSettingPassword; InfoSaving (Some 1) true "asecret1";
       InfoSaved (Some 1) 9; ErrorNotSaved; InfoRetried].
Proof.
  eexists _, _. by_evaluation.
Qed.

(** [save_model_flashes] over the database that keeps no UPDATE: the
    administrator is told that the password was changed. *)
Lemma save_model_flashes_witness :
  Admin.save_model (Orm.from_db 1 old_row) secret_form old_world
    = (Ok changed_settings,
       (Admin.save_model (Orm.from_db 1 old_row) secret_form old_world).2) /\
  flashes (Admin.save_model (Orm.from_db 1 old_row) secret_form old_world).2
    = (flashes old_world ++
       if truthy (Admin.new_password secret_form)
       then [PasswordChanged] else [])%list.
Proof.
  assert (Hrun :
    Admin.save_model (Orm.from_db 1 old_row) secret_form old_world
    = (Ok changed_settings,
       (Admin.save_model (Orm.from_db 1 old_row) secret_form old_world).2))
    by (vm_compute; reflexivity).
  split; [exact Hrun |].
  exact (save_model_flashes _ _ _ _ _ Hrun).
Defined.
End OnLossy.

Section OnShared.
#[local] Existing Instance shared.
#[local] Existing Instance cleartext_hasher.

(** [get_settings_overwrites_other_writer] when the other process
    inserts [old_row] right after the SELECT. *)
Lemma get_settings_overwrites_other_writer_witness :
  store (shared_world [Some old_row]) = (∅, [Some old_row]) /\
  (∅ : Table) !! 1 = None /\
  exists settings w',
    Models.get_settings (shared_world [Some old_row]) = (Ok settings, w') /\
    (store w').1 !! 1
      = Some (mkSettingsRow
                (hasher_encode (entropy (shared_world [Some old_row]))
                   Models.default_password)
                (row_created_at old_row) (row_updated_at old_row) true) /\
    access_password_hash settings
      = hasher_encode (entropy (shared_world [Some old_row]))
          Models.default_password /\
    trace w'
      = (trace (shared_world [Some old_row])
         ++ [QSelect 1; QExists 1; QUpdate 1; QSelect 1])%list.
Proof.
  split; [reflexivity |]. split; [reflexivity |].
  apply (get_settings_overwrites_other_writer
           (shared_world [Some old_row]) ∅ old_row []);
    reflexivity.
Defined.

(** [get_settings_raises_beside_other_writer] when the other process
    inserts [old_row] right after the EXISTS. *)
Lemma get_settings_raises_beside_other_writer_witness :
  store (shared_world [None; Some old_row]) = (∅, [None; Some old_row]) /\
  (∅ : Table) !! 1 = None /\
  exists w',
    Models.get_settings (shared_world [None; Some old_row])
      = (Raise IntegrityError, w') /\
    (store w').1 !! 1 = Some old_row /\
    trace w'
      = (trace (shared_world [None; Some old_row])
         ++ [QSelect 1; QExists 1; QInsert 1])%list.
Proof.
  split; [reflexivity |]. split; [reflexivity |].
  apply (get_settings_raises_beside_other_writer
           (shared_world [None; Some old_row]) ∅ old_row []);
    reflexivity.
Defined.
End OnShared.
